(** * SMAStrategy: the two-instrument moving-average crossover strategy

  A shallow embedding of [src/app.py] (class [SMAStrategy]) and the
  properties of its decision logic and order-lifecycle tracking.

  The strategy runs inside backtrader.  What it inherits from
  [bt.Strategy] and what the engine (Cerebro and its broker) does between
  two callbacks is not part of the repository; the pieces the callbacks
  read are collected in [Module Backtrader] and in the engine model of
  [Module Cerebro], each with the library behaviour it stands for. *)

From Stdlib Require Import QArith ZArith List Bool Lia.
From Stdlib Require Import Lqa.
From Stdlib Require String Ascii.
Import ListNotations.

(** ** Numbers

  Python floats are modelled by exact rationals; [None] is NaN, the value
  of an indicator line before its window is filled.  Every ordered
  comparison with NaN is false, as in Python. *)
Module Num.

Definition num := option Q.
Definition nan : num := None.

Definition Qlt_bool (x y : Q) : bool := negb (Qle_bool y x).

Definition gt (x y : num) : bool :=
  match x, y with Some a, Some b => Qlt_bool b a | _, _ => false end.
Definition lt (x y : num) : bool :=
  match x, y with Some a, Some b => Qlt_bool a b | _, _ => false end.
Definition le (x y : num) : bool :=
  match x, y with Some a, Some b => Qle_bool a b | _, _ => false end.
Definition ge (x y : num) : bool :=
  match x, y with Some a, Some b => Qle_bool b a | _, _ => false end.

End Num.
Import Num.

(** ** The part of backtrader the strategy reads *)
Module Backtrader.

(** The two data feeds, in the order [main] adds them to Cerebro:
    [datas[0]] is VTI, [datas[1]] is TLT. *)
Inductive Data := VTI | TLT.

Definition Data_eqb (a b : Data) : bool :=
  match a, b with VTI, VTI | TLT, TLT => true | _, _ => false end.

(** [Order.Status]. *)
Inductive Status :=
| Created | Submitted | Accepted | Partial | Completed
| Canceled | Expired | Margin | Rejected.

Definition Status_eqb (a b : Status) : bool :=
  match a, b with
  | Created, Created | Submitted, Submitted | Accepted, Accepted
  | Partial, Partial | Completed, Completed | Canceled, Canceled
  | Expired, Expired | Margin, Margin | Rejected, Rejected => true
  | _, _ => false
  end.

(** [x in [a, b, ...]] on statuses. *)
Definition status_in (x : Status) (l : list Status) : bool :=
  existsb (Status_eqb x) l.

(** [order.executed]: price, value (cost) and commission of the fill. *)
Record OrderData := { price : Q; value : Q; comm : Q }.

Record Order := {
  isbuy    : bool;
  data     : Data;
  size     : Z;
  status   : Status;
  executed : OrderData
}.

(** [broker.getposition(data)]; only the size is read.  The truth value
    of a position ([Position.__bool__]) is [size != 0]. *)
Record Position := { psize : Z }.

Definition Position_bool (p : Position) : bool := negb (psize p =? 0)%Z.

(** What [notify_trade] reads of a trade. *)
Record Trade := { isclosed : bool; pnl : Q; pnlcomm : Q }.

(** An indicator line owned by the strategy: a close line of a feed or a
    simple moving average over it. *)
Inductive Line :=
| Close (d : Data)
| SimpleMovingAverage (d : Data) (period : Z).

(** [CrossOver(a, b)], created for plotting only; its line is never
    read by the strategy. *)
Record CrossOver := { co_fast : Line; co_slow : Line }.

(** What the engine exposes to a callback while it runs: the date of the
    current bar of [datas[0]], [len(self)], the values of the lines
    relative to the current bar ([l[0]] current, [l[-1]] previous), and
    the broker's positions. *)
Record Env := {
  date0       : Z;
  len         : nat;
  at_         : Line -> Z -> num;
  getposition : Data -> Position
}.

(** [self.position]: in [bt.Strategy], [position] is the property
    [getposition] called with no data, and [getposition(data=None)]
    takes [self.datas[0]].  It is the position in the first feed, not a
    position of the portfolio. *)
Definition position (env : Env) : Position := getposition env VTI.

(** The sizer installed by [main]: [FixedSize] with [stake=1]. *)
Definition stake : Z := 1.

End Backtrader.
Import Backtrader.

(** ** src/app.py *)
Module App.

(** [SMAStrategy.params]. *)
Record Params := { fast_period : Z; slow_period : Z }.

(** The defaults of the [params] tuple. *)
Definition params : Params := {| fast_period := 10; slow_period := 20 |}.

(** The instance attributes of [SMAStrategy].  [bar_executed] does not
    exist until the first completed order: [None] is "not set". *)
Record SMAStrategy := {
  p            : Params;
  vti_close    : Line;
  tlt_close    : Line;
  order        : option Order;
  buyprice     : option Q;
  buycomm      : option Q;
  vti_fast_sma : Line;
  vti_slow_sma : Line;
  tlt_fast_sma : Line;
  tlt_slow_sma : Line;
  plotted      : list CrossOver;
  bar_executed : option nat
}.

Definition set_order (o : option Order) (s : SMAStrategy) : SMAStrategy :=
  {| p := p s; vti_close := vti_close s; tlt_close := tlt_close s;
     order := o; buyprice := buyprice s; buycomm := buycomm s;
     vti_fast_sma := vti_fast_sma s; vti_slow_sma := vti_slow_sma s;
     tlt_fast_sma := tlt_fast_sma s; tlt_slow_sma := tlt_slow_sma s;
     plotted := plotted s; bar_executed := bar_executed s |}.

Definition set_buyprice (x : option Q) (s : SMAStrategy) : SMAStrategy :=
  {| p := p s; vti_close := vti_close s; tlt_close := tlt_close s;
     order := order s; buyprice := x; buycomm := buycomm s;
     vti_fast_sma := vti_fast_sma s; vti_slow_sma := vti_slow_sma s;
     tlt_fast_sma := tlt_fast_sma s; tlt_slow_sma := tlt_slow_sma s;
     plotted := plotted s; bar_executed := bar_executed s |}.

Definition set_buycomm (x : option Q) (s : SMAStrategy) : SMAStrategy :=
  {| p := p s; vti_close := vti_close s; tlt_close := tlt_close s;
     order := order s; buyprice := buyprice s; buycomm := x;
     vti_fast_sma := vti_fast_sma s; vti_slow_sma := vti_slow_sma s;
     tlt_fast_sma := tlt_fast_sma s; tlt_slow_sma := tlt_slow_sma s;
     plotted := plotted s; bar_executed := bar_executed s |}.

Definition set_bar_executed (x : option nat) (s : SMAStrategy) : SMAStrategy :=
  {| p := p s; vti_close := vti_close s; tlt_close := tlt_close s;
     order := order s; buyprice := buyprice s; buycomm := buycomm s;
     vti_fast_sma := vti_fast_sma s; vti_slow_sma := vti_slow_sma s;
     tlt_fast_sma := tlt_fast_sma s; tlt_slow_sma := tlt_slow_sma s;
     plotted := plotted s; bar_executed := x |}.

(** The four moving averages of a strategy. *)
Definition indicators (s : SMAStrategy) : Line * Line * Line * Line :=
  (vti_fast_sma s, vti_slow_sma s, tlt_fast_sma s, tlt_slow_sma s).

(** The messages handed to [log].  The numbers are kept as they are; the
    source prints them with two decimals. *)
Inductive Text :=
| CLOSES (vti tlt : num)
| BUY_EXECUTED (price cost comm : Q)
| SELL_EXECUTED (price cost comm : Q)
| ORDER_CANCELED_MARGIN_REJECTED
| OPERATION_PROFIT (gross net : Q)
| BUY_VTI_CREATE (close : num)
| BUY_TLT_CREATE (close : num)
| SELL_VTI_CREATE (close : num)
| SELL_TLT_CREATE (close : num).

(** What a callback does to the outside: a printed line ([dt] and the
    message) or an order handed to the broker. *)
Inductive Effect :=
| Print (dt : Z) (txt : Text)
| Submit (o : Order).

(** A callback reads the engine ([Env]), updates [self] and leaves a list
    of effects, in program order. *)
Definition M (A : Type) : Type :=
  Env -> SMAStrategy -> A * SMAStrategy * list Effect.

Definition ret {A} (a : A) : M A := fun _ self => (a, self, []).

Definition bind {A B} (m : M A) (k : A -> M B) : M B :=
  fun env self =>
    let '(a, self1, out1) := m env self in
    let '(b, self2, out2) := k a env self1 in
    (b, self2, out1 ++ out2).

Declare Scope py_scope.
Delimit Scope py_scope with py.
Notation "x <- m ;; k" := (bind m (fun x => k))
  (at level 61, m at next level, right associativity) : py_scope.
Notation "m ;; k" := (bind m (fun _ => k))
  (at level 61, right associativity) : py_scope.
Open Scope py_scope.

Definition asks {A} (f : Env -> A) : M A := fun env self => (f env, self, []).
Definition gets {A} (f : SMAStrategy -> A) : M A :=
  fun _ self => (f self, self, []).
Definition modify (f : SMAStrategy -> SMAStrategy) : M unit :=
  fun _ self => (tt, f self, []).
Definition emit (e : Effect) : M unit := fun _ self => (tt, self, [e]).

(** [self.l[ago]] for a line attribute [l]. *)
Definition rd (l : SMAStrategy -> Line) (ago : Z) : M num :=
  fun env self => (at_ env (l self) ago, self, []).

(** The new [self] and the effects of running a callback. *)
Definition self_after {A} (r : A * SMAStrategy * list Effect) : SMAStrategy :=
  snd (fst r).
Definition effects {A} (r : A * SMAStrategy * list Effect) : list Effect :=
  snd r.

(** The orders among a list of effects, and the printed messages. *)
Fixpoint submitted (es : list Effect) : list Order :=
  match es with
  | [] => []
  | Submit o :: es' => o :: submitted es'
  | Print _ _ :: es' => submitted es'
  end.

Fixpoint printed (es : list Effect) : list Text :=
  match es with
  | [] => []
  | Print _ txt :: es' => txt :: printed es'
  | Submit _ :: es' => printed es'
  end.

(** [log]: [dt] defaults to the date of the current bar of [datas[0]]. *)
Definition log (txt : Text) : M unit :=
  dt <- asks date0 ;;
  emit (Print dt txt).

(** [self.buy(data=d)] and [self.sell(data=d)]: the size comes from the
    sizer; the broker returns the order it has registered, in status
    [Submitted] and with nothing executed yet. *)
Definition new_order (buying : bool) (d : Data) : Order :=
  {| isbuy := buying; data := d; size := stake; status := Submitted;
     executed := {| price := 0; value := 0; comm := 0 |} |}.

Definition buy (d : Data) : M Order :=
  let o := new_order true d in
  emit (Submit o) ;; ret o.

Definition sell (d : Data) : M Order :=
  let o := new_order false d in
  emit (Submit o) ;; ret o.

(** Truth value of [self.order]: [None] is false, an order object true. *)
Definition truthy (o : option Order) : bool :=
  match o with Some _ => true | None => false end.

(** Construction can raise; nothing in [__init__] does. *)
Inductive result (A : Type) :=
| Ok (a : A)
| Raise (msg : nat).
Arguments Ok {A} a.
Arguments Raise {A} msg.

Definition rbind {A B} (r : result A) (k : A -> result B) : result B :=
  match r with Ok a => k a | Raise e => Raise e end.

(** [bt.indicators.SimpleMovingAverage(data, period=n)]: backtrader
    registers the indicator and adds [n] to its minimum period; the
    period is not checked. *)
Definition new_SimpleMovingAverage (d : Data) (n : Z) : result Line :=
  Ok (SimpleMovingAverage d n).

Definition new_CrossOver (a b : Line) : result CrossOver :=
  Ok {| co_fast := a; co_slow := b |}.

(** [SMAStrategy.__init__], run with the parameters [prm]. *)
Definition __init__ (prm : Params) : result SMAStrategy :=
  let vti_close := Close VTI in
  let tlt_close := Close TLT in
  rbind (new_SimpleMovingAverage VTI (fast_period prm)) (fun vti_fast_sma =>
  rbind (new_SimpleMovingAverage VTI (slow_period prm)) (fun vti_slow_sma =>
  rbind (new_SimpleMovingAverage TLT (fast_period prm)) (fun tlt_fast_sma =>
  rbind (new_SimpleMovingAverage TLT (slow_period prm)) (fun tlt_slow_sma =>
  rbind (new_CrossOver vti_fast_sma vti_slow_sma) (fun c0 =>
  rbind (new_CrossOver tlt_fast_sma tlt_slow_sma) (fun c1 =>
  Ok {| p := prm; vti_close := vti_close; tlt_close := tlt_close;
        order := None; buyprice := None; buycomm := None;
        vti_fast_sma := vti_fast_sma; vti_slow_sma := vti_slow_sma;
        tlt_fast_sma := tlt_fast_sma; tlt_slow_sma := tlt_slow_sma;
        plotted := [c0; c1]; bar_executed := None |})))))).

(** The test of lines 97 and 102 on the current and the previous values
    of a fast and a slow line:
    [fast[0] > slow[0] and fast[-1] <= slow[-1]]. *)
Definition crossed_above (fast0 slow0 fast1 slow1 : num) : bool :=
  gt fast0 slow0 && le fast1 slow1.

(** The test of lines 111 and 116:
    [fast[0] < slow[0] and fast[-1] >= slow[-1]]. *)
Definition crossed_below (fast0 slow0 fast1 slow1 : num) : bool :=
  lt fast0 slow0 && ge fast1 slow1.

(** [notify_order]. *)
Definition notify_order (o : Order) : M unit :=
  if status_in (status o) [Submitted; Accepted] then
    ret tt
  else
    (if status_in (status o) [Completed] then
       (if isbuy o then
          log (BUY_EXECUTED (price (executed o)) (value (executed o))
                            (comm (executed o))) ;;
          modify (set_buyprice (Some (price (executed o)))) ;;
          modify (set_buycomm (Some (comm (executed o))))
        else
          log (SELL_EXECUTED (price (executed o)) (value (executed o))
                             (comm (executed o)))) ;;
       n <- asks len ;;
       modify (set_bar_executed (Some n))
     else if status_in (status o) [Canceled; Margin; Rejected] then
       log ORDER_CANCELED_MARGIN_REJECTED
     else
       ret tt) ;;
    modify (set_order None).

(** [notify_trade]. *)
Definition notify_trade (t : Trade) : M unit :=
  if negb (isclosed t) then
    ret tt
  else
    log (OPERATION_PROFIT (pnl t) (pnlcomm t)).

(** [next]. *)
Definition next : M unit :=
  c0 <- rd vti_close 0 ;;
  c1 <- rd tlt_close 0 ;;
  log (CLOSES c0 c1) ;;
  pending <- gets order ;;
  if truthy pending then
    ret tt
  else
    pos <- asks position ;;
    if negb (Position_bool pos) then
      vf0 <- rd vti_fast_sma 0 ;; vs0 <- rd vti_slow_sma 0 ;;
      vf1 <- rd vti_fast_sma (-1) ;; vs1 <- rd vti_slow_sma (-1) ;;
      if crossed_above vf0 vs0 vf1 vs1 then
        log (BUY_VTI_CREATE c0) ;;
        o <- buy VTI ;;
        modify (set_order (Some o))
      else
        tf0 <- rd tlt_fast_sma 0 ;; ts0 <- rd tlt_slow_sma 0 ;;
        tf1 <- rd tlt_fast_sma (-1) ;; ts1 <- rd tlt_slow_sma (-1) ;;
        if crossed_above tf0 ts0 tf1 ts1 then
          log (BUY_TLT_CREATE c1) ;;
          o <- buy TLT ;;
          modify (set_order (Some o))
        else
          ret tt
    else
      p0 <- asks (fun env => getposition env VTI) ;;
      if (psize p0 >? 0)%Z then
        vf0 <- rd vti_fast_sma 0 ;; vs0 <- rd vti_slow_sma 0 ;;
        vf1 <- rd vti_fast_sma (-1) ;; vs1 <- rd vti_slow_sma (-1) ;;
        if crossed_below vf0 vs0 vf1 vs1 then
          log (SELL_VTI_CREATE c0) ;;
          o <- sell VTI ;;
          modify (set_order (Some o))
        else
          ret tt
      else
        p1 <- asks (fun env => getposition env TLT) ;;
        if (psize p1 >? 0)%Z then
          tf0 <- rd tlt_fast_sma 0 ;; ts0 <- rd tlt_slow_sma 0 ;;
          tf1 <- rd tlt_fast_sma (-1) ;; ts1 <- rd tlt_slow_sma (-1) ;;
          if crossed_below tf0 ts0 tf1 ts1 then
            log (SELL_TLT_CREATE c1) ;;
            o <- sell TLT ;;
            modify (set_order (Some o))
          else
            ret tt
        else
          ret tt.

End App.
Import App.

(** ** The vocabulary of the specification *)
Module Spec.

(** The crossover classification of one instrument on one bar. *)
Inductive Cross := NoCross | BullishCross | BearishCross.

(** The classification the source's two tests induce. *)
Definition classify (fast0 slow0 fast1 slow1 : num) : Cross :=
  if crossed_above fast0 slow0 fast1 slow1 then BullishCross
  else if crossed_below fast0 slow0 fast1 slow1 then BearishCross
  else NoCross.

(** The classification of a fast and a slow line on the current bar. *)
Definition crossover (env : Env) (fast slow : Line) : Cross :=
  classify (at_ env fast 0) (at_ env slow 0)
           (at_ env fast (-1)) (at_ env slow (-1)).

(** The value on bar [i] of a series given by its values on bars
    0, 1, 2, ...; undefined outside of them. *)
Definition series (l : list Q) (i : Z) : num :=
  if (i <? 0)%Z then nan else nth_error l (Z.to_nat i).


(** The states of the controller. *)
Inductive State :=
| Flat
| AwaitingEntry (d : Data)
| Holding (d : Data)
| AwaitingExit (d : Data).

(** The state the Pending Order Marker and the broker's positions encode:
    a pending buy is [AwaitingEntry], a pending sell [AwaitingExit]; with
    no order pending, no position is [Flat] and a long position in
    exactly one instrument is [Holding].  Anything else (both instruments
    held, a short position) is no state of the machine. *)
Definition state (env : Env) (self : SMAStrategy) : option State :=
  match order self with
  | Some o =>
      Some (if isbuy o then AwaitingEntry (data o) else AwaitingExit (data o))
  | None =>
      let a := psize (getposition env VTI) in
      let b := psize (getposition env TLT) in
      if (a =? 0)%Z && (b =? 0)%Z then Some Flat
      else if (a >? 0)%Z && (b =? 0)%Z then Some (Holding VTI)
      else if (a =? 0)%Z && (b >? 0)%Z then Some (Holding TLT)
      else None
  end.

(** The Pending Order Marker is set. *)
Definition marker_set (self : SMAStrategy) : Prop := order self <> None.

(** A buy, respectively sell, intent for instrument [d]. *)
Definition buy_intent (d : Data) (o : Order) : Prop :=
  isbuy o = true /\ data o = d.
Definition sell_intent (d : Data) (o : Order) : Prop :=
  isbuy o = false /\ data o = d.

End Spec.
Import Spec.

(** ** The engine around the strategy

    Cerebro drives the strategy one bar at a time: it first delivers the
    broker's notifications for the outstanding order, then calls [next]
    (or [prenext], which does nothing, while the indicators' minimum
    period is not reached). *)
Module Cerebro.

Definition Qsum (l : list Q) : Q := fold_right Qplus 0%Q l.

(** Modelled from the spec: the moving-average accumulator (backtrader's
    [SimpleMovingAverage], not in src/), "producing one scalar value per
    bar once enough history exists; undefined before the window is
    filled": on bar [i] the mean of the last [period] closes, NaN while
    fewer than [period] bars exist.  Window lengths are positive; for any
    other length the model leaves the line undefined. *)
Definition sma (period : Z) (closes : list Q) (i : Z) : num :=
  if (period <=? 0)%Z || (i <? period - 1)%Z
     || (Z.of_nat (length closes) <=? i)%Z
  then nan
  else Some (Qsum (firstn (Z.to_nat period)
                     (skipn (Z.to_nat (i - period + 1)) closes))
             / inject_Z period)%Q.

(** The value of a line [ago] bars from bar [t]. *)
Definition line_value (feeds : Data -> list Q) (t : Z) (l : Line) (ago : Z)
  : num :=
  match l with
  | Close d => series (feeds d) (t + ago)
  | SimpleMovingAverage d n => sma n (feeds d) (t + ago)
  end.

(** Minimum periods: a moving average needs its window, a [CrossOver]
    one bar more than its slower input, the strategy the largest of
    them. *)
Definition line_minperiod (l : Line) : Z :=
  match l with
  | Close _ => 1
  | SimpleMovingAverage _ n => n
  end.

Definition crossover_minperiod (c : CrossOver) : Z :=
  Z.max (line_minperiod (co_fast c)) (line_minperiod (co_slow c)) + 1.

Definition minperiod (s : SMAStrategy) : Z :=
  fold_right Z.max 1%Z
    (map line_minperiod
       [vti_fast_sma s; vti_slow_sma s; tlt_fast_sma s; tlt_slow_sma s]
     ++ map crossover_minperiod (plotted s)).

(** Modelled from the spec: the broker's book for one instrument (held
    size, entry price, commissions paid so far); the broker itself is not
    in src/. *)
Record Lot := { hsize : Z; hprice : Q; hcomm : Q }.

Definition no_holding : Lot := {| hsize := 0; hprice := 0; hcomm := 0 |}.

Record World := {
  feeds   : Data -> list Q;
  strat   : SMAStrategy;
  bars    : nat;
  book    : Data -> Lot;
  pending : list Order;
  out     : list Effect
}.

Definition update {A} (d : Data) (x : A) (f : Data -> A) : Data -> A :=
  fun d' => if Data_eqb d d' then x else f d'.

(** What a callback sees on bar index [i] (so [len(self)] is [i + 1])
    of the feeds [fd], with the broker's book [bk]. *)
Definition bar_env (fd : Data -> list Q) (bk : Data -> Lot) (i : Z)
  : Env :=
  {| date0 := i;
     len := Z.to_nat (i + 1);
     at_ := line_value fd i;
     getposition := fun d => {| psize := hsize (bk d) |} |}.

(** What a callback sees of the world on its current bar. *)
Definition env_of (w : World) : Env :=
  bar_env (feeds w) (book w) (Z.of_nat (bars w) - 1).

(** Run a callback: [self] is replaced, the orders it submits join the
    broker's outstanding orders, its effects are appended to the output. *)
Definition call (m : M unit) (w : World) : World :=
  let r := m (env_of w) (strat w) in
  {| feeds := feeds w; strat := self_after r; bars := bars w;
     book := book w; pending := pending w ++ submitted (effects r);
     out := out w ++ effects r |}.

(** Modelled from the spec: the fill of order [o] against the book [h].
    A buy opens or enlarges the holding; a sell closes [size o] units.
    When the holding returns to zero the trade is closed, with gross
    profit (exit price - entry price) * quantity and net profit gross
    minus the commissions of the entry and the exit. *)
Definition fill (o : Order) (h : Lot) : Lot * option Trade :=
  let ex := executed o in
  if isbuy o then
    if (hsize h =? 0)%Z then
      ({| hsize := size o; hprice := price ex; hcomm := comm ex |},
       Some {| isclosed := false; pnl := 0; pnlcomm := - comm ex |})
    else
      ({| hsize := hsize h + size o;
          hprice := (inject_Z (hsize h) * hprice h
                     + inject_Z (size o) * price ex)
                    / inject_Z (hsize h + size o);
          hcomm := hcomm h + comm ex |}, None)
  else
    let gross := ((price ex - hprice h) * inject_Z (size o))%Q in
    let paid := (hcomm h + comm ex)%Q in
    if (hsize h - size o =? 0)%Z then
      (no_holding,
       Some {| isclosed := true; pnl := gross; pnlcomm := gross - paid |})
    else
      ({| hsize := hsize h - size o; hprice := hprice h; hcomm := paid |},
       None).

Definition with_status (st : Status) (ex : OrderData) (o : Order) : Order :=
  {| isbuy := isbuy o; data := data o; size := size o;
     status := st; executed := ex |}.

Definition set_broker (bk : Data -> Lot) (pd : list Order) (w : World)
  : World :=
  {| feeds := feeds w; strat := strat w; bars := bars w;
     book := bk; pending := pd; out := out w |}.

(** Modelled from the spec: the engine's order-status callback, for the
    broker's oldest outstanding order.  The order takes the reported
    status; a completed order is filled and leaves the outstanding
    orders, a cancelled, expired or rejected one just leaves them; the
    strategy is told ([notify_order], then [notify_trade] for the trade
    the fill touched).  With no order outstanding there is nothing to
    report. *)
Definition notify (w : World) (n : Status * OrderData) : World :=
  match pending w with
  | [] => w
  | o :: rest =>
      let o' := with_status (fst n) (snd n) o in
      match fst n with
      | Completed =>
          let '(h, tr) := fill o' (book w (data o)) in
          let w1 := set_broker (update (data o) h (book w)) rest w in
          let w2 := call (notify_order o') w1 in
          match tr with
          | Some t => call (notify_trade t) w2
          | None => w2
          end
      | Canceled | Expired | Margin | Rejected =>
          call (notify_order o') (set_broker (book w) rest w)
      | Created | Submitted | Accepted | Partial =>
          call (notify_order o') (set_broker (book w) (o' :: rest) w)
      end
  end.

(** The same strategy and broker seen when [n] bars have been delivered;
    the engine moves on one bar at a time. *)
Definition at_bar (n : nat) (w : World) : World :=
  {| feeds := feeds w; strat := strat w; bars := n;
     book := book w; pending := pending w; out := out w |}.

Definition advance (w : World) : World := at_bar (S (bars w)) w.

(** Modelled from the spec: one synchronized time step.  The engine
    delivers the notifications [ns] the broker has for the bar, then calls
    [next]; as backtrader does, it calls [prenext] (a no-op here) instead
    while fewer bars than the minimum period exist.  Nothing happens once
    the feeds are exhausted. *)
Definition step (w : World) (ns : list (Status * OrderData)) : World :=
  if (Nat.min (length (feeds w VTI)) (length (feeds w TLT)) <=? bars w)%nat
  then w
  else
    let w1 := fold_left notify ns (advance w) in
    if (Z.of_nat (bars w1) <? minperiod (strat w1))%Z then w1
    else call next w1.

Definition run (w : World) (bs : list (list (Status * OrderData))) : World :=
  fold_left step bs w.

(** The world at the start of a run over the feeds [fd]. *)
Definition start (fd : Data -> list Q) (s : SMAStrategy) : World :=
  {| feeds := fd; strat := s; bars := 0;
     book := fun _ => no_holding; pending := []; out := [] |}.

(** The statuses the broker reports for the strategy's orders: all but
    [Created], which is never notified, and [Partial], which a one-unit
    order cannot reach. *)
Definition reported (st : Status) : bool :=
  negb (status_in st [Created; Partial]).

(** Every notification of the bars [bs] carries one of these statuses. *)
Definition well_reported (bs : list (list (Status * OrderData))) : Prop :=
  Forall (Forall (fun n => reported (fst n) = true)) bs.

(** The marker follows the broker: no order outstanding when the marker
    is clear, exactly one when it is set. *)
Definition tracked (w : World) : Prop :=
  match order (strat w) with
  | None => pending w = []
  | Some _ => exists o, pending w = [o]
  end.

End Cerebro.
Import Cerebro.

(** ** The outcomes of [next], named *)
Module Outcome.
Section Outcome.

Variable env : Env.
Variable self : SMAStrategy.

(** The line [next] always prints first. *)
Definition closes_line : Effect :=
  Print (date0 env)
        (CLOSES (at_ env (vti_close self) 0) (at_ env (tlt_close self) 0)).

(** The four tests of [next] on the current bar. *)
Definition vti_up : bool :=
  crossed_above (at_ env (vti_fast_sma self) 0) (at_ env (vti_slow_sma self) 0)
    (at_ env (vti_fast_sma self) (-1)) (at_ env (vti_slow_sma self) (-1)).
Definition tlt_up : bool :=
  crossed_above (at_ env (tlt_fast_sma self) 0) (at_ env (tlt_slow_sma self) 0)
    (at_ env (tlt_fast_sma self) (-1)) (at_ env (tlt_slow_sma self) (-1)).
Definition vti_down : bool :=
  crossed_below (at_ env (vti_fast_sma self) 0) (at_ env (vti_slow_sma self) 0)
    (at_ env (vti_fast_sma self) (-1)) (at_ env (vti_slow_sma self) (-1)).
Definition tlt_down : bool :=
  crossed_below (at_ env (tlt_fast_sma self) 0) (at_ env (tlt_slow_sma self) 0)
    (at_ env (tlt_fast_sma self) (-1)) (at_ env (tlt_slow_sma self) (-1)).

(** The outcome of [next] when it creates the order [o] and logs [txt]. *)
Definition creates (txt : Text) (o : Order)
  : unit * SMAStrategy * list Effect :=
  (tt, set_order (Some o) self,
   [closes_line; Print (date0 env) txt; Submit o]).

Definition idles : unit * SMAStrategy * list Effect :=
  (tt, self, [closes_line]).

End Outcome.
End Outcome.
Import Outcome.

(** ** Concrete runs *)
Module Scenario.

(** The strategy [__init__] builds from the default parameters. *)
Definition strategy0 : SMAStrategy :=
  {| p := params; vti_close := Close VTI; tlt_close := Close TLT;
     order := None; buyprice := None; buycomm := None;
     vti_fast_sma := SimpleMovingAverage VTI 10;
     vti_slow_sma := SimpleMovingAverage VTI 20;
     tlt_fast_sma := SimpleMovingAverage TLT 10;
     tlt_slow_sma := SimpleMovingAverage TLT 20;
     plotted :=
       [ {| co_fast := SimpleMovingAverage VTI 10;
            co_slow := SimpleMovingAverage VTI 20 |};
         {| co_fast := SimpleMovingAverage TLT 10;
            co_slow := SimpleMovingAverage TLT 20 |} ];
     bar_executed := None |}.

(** Twenty closes at 100, then a jump to 310 on bar 20, then [tl]: the
    fast average crosses above the slow one on bar 20. *)
Definition jump_at_20 (tl : list Q) : list Q :=
  repeat 100%Q 20 ++ [310%Q] ++ tl.

(** The same jump one bar later. *)
Definition jump_at_21 (tl : list Q) : list Q :=
  repeat 100%Q 21 ++ [310%Q] ++ tl.

(** Both instruments cross on bar 20. *)
Definition both_cross (d : Data) : list Q := jump_at_20 [310%Q; 310%Q].

(** TLT crosses on bar 20, VTI on bar 21. *)
Definition tlt_then_vti (d : Data) : list Q :=
  match d with
  | VTI => jump_at_21 [310%Q; 310%Q]
  | TLT => jump_at_20 [310%Q; 310%Q; 310%Q]
  end.

(** VTI crosses up on bar 20 and down on bar 23; TLT never moves. *)
Definition up_then_down (d : Data) : list Q :=
  match d with
  | VTI => jump_at_20 [1%Q; 1%Q; 1%Q; 1%Q; 1%Q]
  | TLT => repeat 100%Q 26
  end.

(** The broker's three notifications for an order that fills at [px]
    with commission [c]. *)
Definition fills (px c : Q) : list (Status * OrderData) :=
  let ex := {| price := px; value := px; comm := c |} in
  [(Submitted, ex); (Accepted, ex); (Completed, ex)].

Definition nothing : OrderData := {| price := 0; value := 0; comm := 0 |}.

(** The broker's notifications for an order it rejects. *)
Definition rejects : list (Status * OrderData) :=
  [(Submitted, nothing); (Rejected, nothing)].

(** [n] bars without notifications. *)
Definition quiet (n : nat) : list (list (Status * OrderData)) := repeat [] n.

(** The world in which [next] runs on the bar after [w], once the
    notifications [ns] are delivered. *)
Definition before_next (w : World) (ns : list (Status * OrderData)) : World :=
  fold_left notify ns (advance w).

(** Holding TLT: the entry on bar 20 has filled on bar 21. *)
Definition long_tlt : World :=
  before_next (run (start tlt_then_vti strategy0) (quiet 21))
              (fills 310 (31 # 40)).


(** A configuration with non-positive window lengths. *)
Definition bad_windows : Params := {| fast_period := -1; slow_period := 0 |}.

(** A strategy whose marker is set. *)
Definition awaiting : SMAStrategy :=
  set_order (Some (new_order true VTI)) strategy0.

End Scenario.
Import Scenario.

(** ** The log of [next] *)
Module Journal.

(** The message [next] logs when it creates the order [o]: one of the four
    [... CREATE] lines, with the close of the instrument traded. *)
Definition create_text (env : Env) (self : SMAStrategy) (o : Order) : Text :=
  match isbuy o, data o with
  | true, VTI => BUY_VTI_CREATE (at_ env (vti_close self) 0)
  | true, TLT => BUY_TLT_CREATE (at_ env (tlt_close self) 0)
  | false, VTI => SELL_VTI_CREATE (at_ env (vti_close self) 0)
  | false, TLT => SELL_TLT_CREATE (at_ env (tlt_close self) 0)
  end.

(** The attributes of [self] no callback is meant to touch: the
    parameters and the lines. *)
Definition wiring (s : SMAStrategy)
  : Params * Line * Line * (Line * Line * Line * Line) * list CrossOver :=
  (p s, vti_close s, tlt_close s, indicators s, plotted s).

End Journal.
Import Journal.

(** ** What a run keeps *)
Module Ledger.

(** The positions a run of the strategy can reach and the orders it can
    have outstanding: at most one unit of VTI, no short position; an
    outstanding VTI buy only while no VTI is held, an outstanding sell only
    for the unit of VTI held; and no sell of TLT among the orders submitted
    so far. *)
Definition long_only (w : World) : Prop :=
  tracked w
  /\ (0 <= hsize (book w VTI) <= 1)%Z
  /\ (0 <= hsize (book w TLT))%Z
  /\ (forall o, In o (pending w) ->
        size o = 1%Z
        /\ (isbuy o = true -> data o = VTI -> hsize (book w VTI) = 0%Z)
        /\ (isbuy o = false -> data o = VTI /\ hsize (book w VTI) = 1%Z))
  /\ (forall o, In o (submitted (out w)) -> isbuy o = true \/ data o = VTI).

End Ledger.
Import Ledger.

(** ** Paths and files

    The scripts reach the file system through [os.path] and [os]; what
    they use of it is modelled here on POSIX paths. *)
Module Files.
Import Ascii String.
Local Open Scope string_scope.

(** [s.endswith('/')]. *)
Fixpoint endswith_sep (s : string) : bool :=
  match s with
  | EmptyString => false
  | String c EmptyString => (c =? "/")%char
  | String _ s' => endswith_sep s'
  end.

(** [s.startswith('/')]. *)
Definition startswith_sep (s : string) : bool :=
  match s with
  | EmptyString => false
  | String c _ => (c =? "/")%char
  end.

(** What [os.path.join] puts in front of a relative name: [a] itself when
    it is empty or ends with a slash, [a] and a slash otherwise. *)
Definition stem (a : string) : string :=
  if (a =? "") || endswith_sep a then a else a ++ "/".

(** [os.path.join(a, b)]: an absolute [b] replaces [a]; otherwise [b] is
    appended, after a slash unless [a] is empty or ends with one. *)
Definition join (a b : string) : string :=
  if startswith_sep b then b
  else if (a =? "") || endswith_sep a then a ++ b
  else a ++ "/" ++ b.

(** [c in s]. *)
Fixpoint has (c : ascii) (s : string) : bool :=
  match s with
  | EmptyString => false
  | String a s' => (a =? c)%char || has c s'
  end.

(** [os.path.basename(p)]: what follows the last slash of [p]. *)
Fixpoint basename (p : string) : string :=
  match p with
  | EmptyString => EmptyString
  | String c p' =>
      if (c =? "/")%char || has "/" p' then basename p' else p
  end.

(** [s.split(c)[0]]: what precedes the first [c] of [s]. *)
Fixpoint before (c : ascii) (s : string) : string :=
  match s with
  | EmptyString => EmptyString
  | String a s' => if (a =? c)%char then EmptyString else String a (before c s')
  end.

Section FileSystem.

(** The content of a CSV file: the frame written by [to_csv]. *)
Variable DataFrame : Type.

Inductive Node :=
| Dir
| File (df : DataFrame).

(** A file system: what is found at each path. *)
Definition FS : Type := string -> option Node.

(** [os.path.exists(p)]. *)
Definition exists_ (fs : FS) (p : string) : bool :=
  match fs p with
  | Some _ => true
  | None => false
  end.

Definition write (p : string) (n : Node) (fs : FS) : FS :=
  fun q => if p =? q then Some n else fs q.

(** [os.makedirs(p, exist_ok=True)]: creates the directory, accepts an
    existing one, raises FileExistsError (errno 17) when [p] is a file. *)
Definition makedirs (p : string) (fs : FS) : result FS :=
  match fs p with
  | None => Ok (write p Dir fs)
  | Some Dir => Ok fs
  | Some (File _) => Raise 17
  end.

End FileSystem.

Arguments Dir {DataFrame}.
Arguments File {DataFrame} df.
Arguments exists_ {DataFrame} fs p.
Arguments write {DataFrame} p n fs.
Arguments makedirs {DataFrame} p fs.

End Files.
Import Files.

(** ** src/download_historical_data.py *)
Module DownloadHistoricalData.
Import Ascii String.
Local Open Scope string_scope.

(** The list of stocks. *)
Definition tickers : list string :=
  ["VTI"; "TLT"; "IEF"; "GSG"; "GLD"; "VNQ"; "EFA"; "VWO"; "TIP"; "BND";
   "VEA"].

(** The two messages of the loop. *)
Inductive Message :=
| ALREADY_EXISTS (ticker : string)
| DOWNLOADED (ticker file_path : string).

(** What the script does to the outside besides writing files: a printed
    line or a call of [yf.download]. *)
Inductive Event :=
| Printed (m : Message)
| Download (ticker : string).

(** The tickers downloaded, in order. *)
Fixpoint downloads (es : list Event) : list string :=
  match es with
  | [] => []
  | Download t :: es' => t :: downloads es'
  | Printed _ :: es' => downloads es'
  end.

(** [os.path.join(data_dir, f"{ticker}_data.csv")]. *)
Definition file_path (data_dir ticker : string) : string :=
  join data_dir (ticker ++ "_data.csv").

Section Script.

Variable DataFrame : Type.

(** [yf.download(ticker, start="2020-01-01", end="2025-12-31",
    interval="1d")], taken to return a frame. *)
Variable download : string -> DataFrame.

(** The loop over the tickers. *)
Fixpoint fetch (data_dir : string) (ts : list string) (fs : FS DataFrame)
  : FS DataFrame * list Event :=
  match ts with
  | [] => (fs, [])
  | ticker :: ts' =>
      let path := file_path data_dir ticker in
      if exists_ fs path then
        let '(fs', es) := fetch data_dir ts' fs in
        (fs', Printed (ALREADY_EXISTS ticker) :: es)
      else
        let df := download ticker in
        let '(fs', es) := fetch data_dir ts' (write path (File df) fs) in
        (fs', Download ticker :: Printed (DOWNLOADED ticker path) :: es)
  end.

(** The script, run from the directory [here]
    ([os.path.dirname(os.path.abspath(__file__))]). *)
Definition script (here : string) (fs : FS DataFrame)
  : result (FS DataFrame * list Event) :=
  let data_dir := join here "data" in
  rbind (makedirs data_dir fs) (fun fs1 =>
  Ok (fetch data_dir tickers fs1)).

End Script.

Arguments fetch {DataFrame} download data_dir ts fs.
Arguments script {DataFrame} download here fs.

End DownloadHistoricalData.

(** ** [main] of src/app.py *)
Module AppMain.
Import Ascii String.
Local Open Scope string_scope.

(** The messages of the three checks. *)
Inductive Message :=
| DATA_DIR_DOES_NOT_EXIST (data_dir : string)
| VTI_FILE_DOES_NOT_EXIST (vti_data_path : string)
| TLT_FILE_DOES_NOT_EXIST (tlt_data_path : string).

(** What [main] hands to Cerebro before it runs it: the strategy with its
    default parameters, the two feeds in the order they are added, the
    cash, the stake of the sizer and the commission. *)
Record Setup := {
  strategy   : Params;
  feeds      : list (string * string);
  cash       : Q;
  sizer      : Z;
  commission : Q
}.

Inductive Outcome :=
| Stopped (m : Message)
| Backtest (cfg : Setup).

(** [main], run from the directory [here]; [found] is
    [os.path.exists]. *)
Definition main (here : string) (found : string -> bool) : Outcome :=
  let data_dir := join here "data" in
  if negb (found data_dir) then
    Stopped (DATA_DIR_DOES_NOT_EXIST data_dir)
  else
    let vti_data_path := join data_dir "VTI_data.csv" in
    if negb (found vti_data_path) then
      Stopped (VTI_FILE_DOES_NOT_EXIST vti_data_path)
    else
      let tlt_data_path := join data_dir "TLT_data.csv" in
      if negb (found tlt_data_path) then
        Stopped (TLT_FILE_DOES_NOT_EXIST tlt_data_path)
      else
        Backtest {| strategy := params;
                    feeds := [("VTI", vti_data_path); ("TLT", tlt_data_path)];
                    cash := 10000;
                    sizer := 1;
                    commission := 25 # 10000 |}.

End AppMain.

(** ** src/r2_correlation_matrix.py *)
Module R2CorrelationMatrix.
Import Ascii String.
Local Open Scope string_scope.

(** [os.path.basename(csv_file).split('_')[0]]. *)
Definition ticker_of (csv_file : string) : string :=
  before "_" (basename csv_file).

(** A pandas Series of floats: labels with their values, in index
    order. *)
Definition Series : Type := list (string * num).

(** A frame, as the correlation matrix is: column labels with their
    columns.  The labels come from the keys of a dict and are distinct. *)
Definition Frame : Type := list (string * Series).

(** [frame[label]]: the column, KeyError (here 2) when there is none. *)
Fixpoint column (label : string) (m : Frame) : result Series :=
  match m with
  | [] => Raise 2
  | (l, s) :: m' => if l =? label then Ok s else column label m'
  end.

(** [series.drop(label)]: the rows of other labels, KeyError when the
    label is not in the index. *)
Definition drop (label : string) (s : Series) : result Series :=
  if existsb (fun e => fst e =? label) s
  then Ok (filter (fun e => negb (fst e =? label)) s)
  else Raise 2.

(** The values that are not NaN. *)
Fixpoint defined (s : Series) : list Q :=
  match s with
  | [] => []
  | (_, Some q) :: s' => q :: defined s'
  | (_, None) :: s' => defined s'
  end.

(** [series.mean()]: the mean of the values that are not NaN; NaN when
    there is none. *)
Definition mean (s : Series) : num :=
  match defined s with
  | [] => nan
  | vs => Some (Qsum vs / inject_Z (Z.of_nat (List.length vs)))%Q
  end.

(** [x ** 2] on a float. *)
Definition square (x : num) : num :=
  match x with
  | Some q => Some (q * q)%Q
  | None => nan
  end.

(** [correlation_matrix ** 2]. *)
Definition pow2 (m : Frame) : Frame :=
  map (fun c => (fst c, map (fun e => (fst e, square (snd e))) (snd c))) m.

(** [d[key] = v] on a dict kept in insertion order. *)
Fixpoint assign (key : string) (v : num) (d : list (string * num))
  : list (string * num) :=
  match d with
  | [] => [(key, v)]
  | (k, x) :: d' =>
      if k =? key then (k, v) :: d' else (k, x) :: assign key v d'
  end.

(** The loop over [correlation_matrix.columns]: for each ticker the mean
    of its correlations and of its R-squared values with the other
    tickers. *)
Fixpoint average_loop (correlation_matrix r2_matrix : Frame)
    (columns : list string) (avg_correlation avg_r2 : list (string * num))
  : result (list (string * num) * list (string * num)) :=
  match columns with
  | [] => Ok (avg_correlation, avg_r2)
  | ticker :: columns' =>
      rbind (column ticker correlation_matrix) (fun c =>
      rbind (drop ticker c) (fun correlations =>
      rbind (column ticker r2_matrix) (fun c2 =>
      rbind (drop ticker c2) (fun r2_values =>
      average_loop correlation_matrix r2_matrix columns'
        (assign ticker (mean correlations) avg_correlation)
        (assign ticker (mean r2_values) avg_r2)))))
  end.

(** Lines 100 to 113 of [main]: the R-squared matrix and the two dicts of
    averages, from the correlation matrix. *)
Definition averages (correlation_matrix : Frame)
  : result (list (string * num) * list (string * num)) :=
  let r2_matrix := pow2 correlation_matrix in
  average_loop correlation_matrix r2_matrix (map fst correlation_matrix)
    [] [].

(** Every value of the frame that is not NaN lies between [lo] and
    [hi]. *)
Definition within (lo hi : Q) (m : Frame) : Prop :=
  forall l s k q, In (l, s) m -> In (k, Some q) s -> (lo <= q <= hi)%Q.

(** A value is NaN or lies between [lo] and [hi]. *)
Definition nan_or_within (lo hi : Q) (x : num) : Prop :=
  match x with
  | None => True
  | Some q => (lo <= q <= hi)%Q
  end.

End R2CorrelationMatrix.

(** ** A small disk *)
Module Disk.
Import Ascii String.
Local Open Scope string_scope.

(** A disk holding one CSV file already, whose frames are numbers, and a
    download that returns the length of the ticker. *)
Definition old_vti : FS nat :=
  write "/srv/data/VTI_data.csv" (File 7%nat) (fun _ => None).

Definition fake_download (ticker : string) : nat := String.length ticker.

(** The disk and the events after the script has run in [/srv]. *)
Definition after_run : FS nat * list DownloadHistoricalData.Event :=
  DownloadHistoricalData.fetch fake_download "/srv/data"
    DownloadHistoricalData.tickers (write "/srv/data" Dir old_vti).

End Disk.

(** ** A small correlation matrix *)
Module Sample.
Import Ascii String R2CorrelationMatrix.
Local Open Scope string_scope.

(** Two ETFs with correlation -1/2. *)
Definition two_etfs : Frame :=
  [("VTI", [("VTI", Some 1%Q); ("TLT", Some (-1 # 2)%Q)]);
   ("TLT", [("VTI", Some (-1 # 2)%Q); ("TLT", Some 1%Q)])].

End Sample.

(** * Properties *)

(** ** Comparisons *)
Section NumFacts.

Lemma Qlt_bool_iff (x y : Q) : Qlt_bool x y = true <-> (x < y)%Q.
Proof.
  unfold Qlt_bool. rewrite negb_true_iff. split.
  - intros H. apply Qnot_le_lt. intros Hle.
    apply Qle_bool_iff in Hle. congruence.
  - intros H. destruct (Qle_bool y x) eqn:E; [|reflexivity].
    apply Qle_bool_iff in E. exfalso. exact (Qlt_not_le _ _ H E).
Qed.

Lemma gt_Some (a b : Q) : gt (Some a) (Some b) = true <-> (b < a)%Q.
Proof. apply Qlt_bool_iff. Qed.

Lemma lt_Some (a b : Q) : lt (Some a) (Some b) = true <-> (a < b)%Q.
Proof. apply Qlt_bool_iff. Qed.

Lemma le_Some (a b : Q) : le (Some a) (Some b) = true <-> (a <= b)%Q.
Proof. apply Qle_bool_iff. Qed.

Lemma ge_Some (a b : Q) : ge (Some a) (Some b) = true <-> (b <= a)%Q.
Proof. apply Qle_bool_iff. Qed.

(** Strictly above and strictly below exclude each other. *)
Lemma gt_lt_excl (x y : num) : gt x y = true -> lt x y = false.
Proof.
  destruct x as [a|], y as [b|]; try discriminate.
  intros H. apply gt_Some in H.
  destruct (lt (Some a) (Some b)) eqn:E; [|reflexivity].
  apply lt_Some in E. exfalso. exact (Qlt_irrefl _ (Qlt_trans _ _ _ H E)).
Qed.

(** A test on an undefined current slow value fails. *)
Lemma crossed_above_nan f0 f1 s1 : crossed_above f0 nan f1 s1 = false.
Proof. unfold crossed_above, gt. destruct f0; reflexivity. Qed.

Lemma crossed_below_nan f0 f1 s1 : crossed_below f0 nan f1 s1 = false.
Proof. unfold crossed_below, lt. destruct f0; reflexivity. Qed.

Lemma crossed_excl f0 s0 f1 s1 :
  crossed_above f0 s0 f1 s1 = true -> crossed_below f0 s0 f1 s1 = false.
Proof.
  unfold crossed_above, crossed_below. intros H.
  apply andb_true_iff in H as [H _]. now rewrite (gt_lt_excl _ _ H).
Qed.

End NumFacts.

(** ** The callbacks, unfolded *)
Section Callbacks.

Variable env : Env.
Variable self : SMAStrategy.

Lemma next_eq :
  next env self =
  if truthy (order self) then idles env self
  else if negb (Position_bool (position env)) then
    if vti_up env self then
      creates env self (BUY_VTI_CREATE (at_ env (vti_close self) 0))
              (new_order true VTI)
    else if tlt_up env self then
      creates env self (BUY_TLT_CREATE (at_ env (tlt_close self) 0))
              (new_order true TLT)
    else idles env self
  else if (psize (getposition env VTI) >? 0)%Z then
    if vti_down env self then
      creates env self (SELL_VTI_CREATE (at_ env (vti_close self) 0))
              (new_order false VTI)
    else idles env self
  else if (psize (getposition env TLT) >? 0)%Z then
    if tlt_down env self then
      creates env self (SELL_TLT_CREATE (at_ env (tlt_close self) 0))
              (new_order false TLT)
    else idles env self
  else idles env self.
Proof.
  unfold next, bind, rd, log, gets, asks, emit, ret, modify, buy, sell,
    idles, creates, closes_line, vti_up, tlt_up, vti_down, tlt_down.
  cbn.
  destruct (truthy (order self)); [reflexivity|].
  destruct (negb (Position_bool (position env))).
  - destruct (crossed_above _ _ _ _); [reflexivity|].
    destruct (crossed_above _ _ _ _); reflexivity.
  - destruct (psize (getposition env VTI) >? 0)%Z.
    + destruct (crossed_below _ _ _ _); reflexivity.
    + destruct (psize (getposition env TLT) >? 0)%Z; [|reflexivity].
      destruct (crossed_below _ _ _ _); reflexivity.
Qed.

(** With an order pending, [next] prints the closes and does nothing
    else. *)
Lemma next_pending : order self <> None -> next env self = idles env self.
Proof.
  intros H. rewrite next_eq. destruct (order self); [reflexivity|congruence].
Qed.

(** What [next] hands to the broker: nothing, or the one order it then
    keeps in [self.order]. *)
Lemma next_outcome :
  (submitted (effects (next env self)) = []
   /\ self_after (next env self) = self)
  \/ (exists o, submitted (effects (next env self)) = [o]
       /\ self_after (next env self) = set_order (Some o) self
       /\ order self = None).
Proof.
  rewrite next_eq. destruct (order self) eqn:Eo; cbn [truthy].
  - left. split; reflexivity.
  - repeat match goal with
      | |- context [if ?c then _ else _] => destruct c
      end;
      first [ left; split; reflexivity
            | right; eexists; repeat split; reflexivity ].
Qed.

(** The conditions under which [next] submits a given order. *)
Lemma next_submits (o : Order) :
  In o (submitted (effects (next env self))) ->
  order self = None /\
  ( (o = new_order true VTI
      /\ psize (getposition env VTI) = 0%Z /\ vti_up env self = true)
    \/ (o = new_order true TLT
      /\ psize (getposition env VTI) = 0%Z /\ vti_up env self = false
      /\ tlt_up env self = true)
    \/ (o = new_order false VTI
      /\ (psize (getposition env VTI) > 0)%Z /\ vti_down env self = true)
    \/ (o = new_order false TLT
      /\ (psize (getposition env VTI) < 0)%Z
      /\ (psize (getposition env TLT) > 0)%Z /\ tlt_down env self = true) ).
Proof.
  rewrite next_eq. destruct (order self) eqn:Eo; cbn [truthy].
  - cbn. tauto.
  - unfold position, Position_bool. intros H. split; [reflexivity|].
    destruct (psize (getposition env VTI) =? 0)%Z eqn:E0; cbn [negb] in H.
    + apply Z.eqb_eq in E0.
      destruct (vti_up env self) eqn:Ev.
      * cbn in H. destruct H as [<-|[]]. left. auto.
      * destruct (tlt_up env self) eqn:Et; cbn in H; [|tauto].
        destruct H as [<-|[]]. right; left. auto.
    + apply Z.eqb_neq in E0.
      destruct (psize (getposition env VTI) >? 0)%Z eqn:E1.
      * apply Z.gtb_lt in E1.
        destruct (vti_down env self) eqn:Ev; cbn in H; [|tauto].
        destruct H as [<-|[]]. right; right; left. split; [reflexivity|].
        split; [lia|reflexivity].
      * rewrite Z.gtb_ltb in E1. apply Z.ltb_ge in E1.
        destruct (psize (getposition env TLT) >? 0)%Z eqn:E2;
          [|cbn in H; tauto].
        apply Z.gtb_lt in E2.
        destruct (tlt_down env self) eqn:Et; cbn in H; [|tauto].
        destruct H as [<-|[]]. right; right; right.
        repeat split; try lia.
Qed.

End Callbacks.

(** ** [notify_order], by status *)
Section NotifyOrder.

Variable env : Env.
Variable self : SMAStrategy.
Variable o : Order.

Lemma notify_order_nonterminal :
  In (status o) [Submitted; Accepted] ->
  notify_order o env self = (tt, self, []).
Proof.
  intros H. unfold notify_order.
  destruct H as [<-|[<-|[]]]; reflexivity.
Qed.


Lemma notify_order_completed :
  status o = Completed ->
  notify_order o env self =
  let ex := executed o in
  if isbuy o then
    (tt,
     set_order None
       (set_bar_executed (Some (len env))
          (set_buycomm (Some (comm ex))
             (set_buyprice (Some (price ex)) self))),
     [Print (date0 env) (BUY_EXECUTED (price ex) (value ex) (comm ex))])
  else
    (tt, set_order None (set_bar_executed (Some (len env)) self),
     [Print (date0 env) (SELL_EXECUTED (price ex) (value ex) (comm ex))]).
Proof.
  intros H. unfold notify_order. rewrite H. cbn.
  destruct (isbuy o); reflexivity.
Qed.

(** [notify_order] never submits an order. *)
Lemma notify_order_submits_nothing :
  submitted (effects (notify_order o env self)) = [].
Proof.
  unfold notify_order.
  destruct (status o); cbn; try reflexivity; destruct (isbuy o); reflexivity.
Qed.

(** Any status other than Submitted and Accepted clears the marker. *)
Lemma notify_order_clears :
  ~ In (status o) [Submitted; Accepted] ->
  order (self_after (notify_order o env self)) = None.
Proof.
  intros H. unfold notify_order.
  destruct (status o); cbn in *; try reflexivity; try tauto;
    destruct (isbuy o); reflexivity.
Qed.

End NotifyOrder.

Lemma notify_trade_submits_nothing t env self :
  submitted (effects (notify_trade t env self)) = []
  /\ self_after (notify_trade t env self) = self.
Proof.
  unfold notify_trade. destruct (isclosed t); split; reflexivity.
Qed.

Lemma init_default : __init__ params = Ok strategy0.
Proof. reflexivity. Qed.

(** ** The marker and the broker's outstanding orders *)
Section Tracking.

Lemma tracked_length w : tracked w -> (length (pending w) <= 1)%nat.
Proof.
  unfold tracked. destruct (order (strat w)).
  - intros [o1 ->]. cbn. lia.
  - intros ->. cbn. lia.
Qed.

Lemma tracked_start fd s : order s = None -> tracked (start fd s).
Proof. intros H. unfold tracked. cbn. now rewrite H. Qed.

Lemma tracked_advance w : tracked w -> tracked (advance w).
Proof. exact (fun H => H). Qed.

Lemma tracked_next w : tracked w -> tracked (call next w).
Proof.
  unfold tracked, call. cbn [strat pending]. intros H.
  destruct (next_outcome (env_of w) (strat w)) as [[Hs Hf]|(o & Hs & Hf & Ho)];
    rewrite Hs, Hf.
  - rewrite app_nil_r. exact H.
  - rewrite Ho in H. rewrite H. cbn. eauto.
Qed.

(** A callback that submits nothing and leaves the marker alone keeps
    the world tracked. *)
Lemma tracked_call_same (m : M unit) w :
  submitted (effects (m (env_of w) (strat w))) = [] ->
  order (self_after (m (env_of w) (strat w))) = order (strat w) ->
  tracked w -> tracked (call m w).
Proof.
  unfold tracked, call. cbn [strat pending]. intros -> ->.
  now rewrite app_nil_r.
Qed.

(** A callback that submits nothing and clears the marker, run when the
    broker has no order outstanding, leaves the world tracked. *)
Lemma tracked_call_clear (m : M unit) w :
  submitted (effects (m (env_of w) (strat w))) = [] ->
  order (self_after (m (env_of w) (strat w))) = None ->
  pending w = [] -> tracked (call m w).
Proof.
  unfold tracked, call. cbn [strat pending]. now intros -> -> ->.
Qed.

Lemma tracked_notify w n :
  reported (fst n) = true -> tracked w -> tracked (notify w n).
Proof.
  intros Hr H. unfold notify.
  destruct (pending w) as [|o rest] eqn:Ep; [exact H|].
  assert (Hrest : rest = []).
  { unfold tracked in H. rewrite Ep in H.
    destruct (order (strat w)); [|discriminate].
    destruct H as [o1 H]. congruence. }
  assert (Hset : exists o1, order (strat w) = Some o1).
  { unfold tracked in H. rewrite Ep in H.
    destruct (order (strat w)); [eauto|discriminate]. }
  subst rest. destruct Hset as [o1 Ho1].
  assert (Hterm : forall st ex bk,
            ~ In st [Submitted; Accepted] ->
            tracked (call (notify_order (with_status st ex o))
                          (set_broker bk [] w))).
  { intros st ex bk Hst. apply tracked_call_clear.
    - apply notify_order_submits_nothing.
    - now apply notify_order_clears.
    - reflexivity. }
  assert (Hnon : forall st ex,
            In st [Submitted; Accepted] ->
            tracked (call (notify_order (with_status st ex o))
                          (set_broker (book w) [with_status st ex o] w))).
  { intros st ex Hst. apply tracked_call_same.
    - apply notify_order_submits_nothing.
    - now rewrite notify_order_nonterminal.
    - unfold tracked. cbn. rewrite Ho1. eauto. }
  destruct n as [st ex]. cbn [fst snd] in *.
  destruct st; try discriminate Hr.
  - apply Hnon. cbn. auto.
  - apply Hnon. cbn. auto.
  - destruct (fill _ _) as [h tr].
    pose proof (Hterm Completed ex (update (data o) h (book w))) as H2.
    destruct tr as [t|]; [|apply H2; cbn; intuition discriminate].
    apply tracked_call_same.
    + apply notify_trade_submits_nothing.
    + now rewrite (proj2 (notify_trade_submits_nothing _ _ _)).
    + apply H2. cbn. intuition discriminate.
  - apply Hterm. cbn. intuition discriminate.
  - apply Hterm. cbn. intuition discriminate.
  - apply Hterm. cbn. intuition discriminate.
  - apply Hterm. cbn. intuition discriminate.
Qed.

Lemma tracked_notifications ns : forall w,
  Forall (fun n => reported (fst n) = true) ns ->
  tracked w -> tracked (fold_left notify ns w).
Proof.
  induction ns as [|n ns IH]; intros w Hr H; [exact H|].
  inversion Hr; subst. cbn. apply IH; [assumption|].
  now apply tracked_notify.
Qed.

Lemma tracked_step w ns :
  Forall (fun n => reported (fst n) = true) ns ->
  tracked w -> tracked (step w ns).
Proof.
  intros Hr H. unfold step.
  destruct (_ <=? _)%nat; [exact H|].
  pose proof (tracked_notifications ns (advance w) Hr (tracked_advance w H))
    as H1.
  destruct (_ <? _)%Z; [exact H1|].
  now apply tracked_next.
Qed.

Lemma tracked_run bs : forall w,
  well_reported bs -> tracked w -> tracked (run w bs).
Proof.
  induction bs as [|ns bs IH]; intros w Hr H; [exact H|].
  inversion Hr; subst. cbn. apply IH; [assumption|].
  now apply tracked_step.
Qed.

End Tracking.

(** ** Classification *)
Section Classification.

Lemma classify_bullish f0 s0 f1 s1 :
  classify f0 s0 f1 s1 = BullishCross <-> crossed_above f0 s0 f1 s1 = true.
Proof.
  unfold classify. destruct (crossed_above f0 s0 f1 s1).
  - tauto.
  - destruct (crossed_below f0 s0 f1 s1); split; discriminate.
Qed.

Lemma classify_bearish f0 s0 f1 s1 :
  classify f0 s0 f1 s1 = BearishCross <-> crossed_below f0 s0 f1 s1 = true.
Proof.
  unfold classify. destruct (crossed_above f0 s0 f1 s1) eqn:E.
  - rewrite (crossed_excl _ _ _ _ E). split; discriminate.
  - destruct (crossed_below f0 s0 f1 s1); split; congruence.
Qed.

(** Without a defined current slow value there is no crossover. *)
Lemma classify_nan f0 f1 s1 : classify f0 nan f1 s1 = NoCross.
Proof.
  unfold classify. now rewrite crossed_above_nan, crossed_below_nan.
Qed.

(** The slow average is undefined while its window is unfilled. *)
Lemma sma_unfilled period closes i :
  (i < period - 1)%Z -> sma period closes i = nan.
Proof.
  intros H. unfold sma.
  apply Z.ltb_lt in H. rewrite H, orb_true_r. reflexivity.
Qed.

End Classification.



(** C4: Flat, no order pending, and a BullishCross on both instruments on
    the same bar: the one order [next] submits is the buy of instrument A
    (VTI). *)
Theorem tie_break_favours_vti :
  forall (env : Env) (self : SMAStrategy),
    state env self = Some Flat ->
    crossover env (vti_fast_sma self) (vti_slow_sma self) = BullishCross ->
    crossover env (tlt_fast_sma self) (tlt_slow_sma self) = BullishCross ->
    submitted (effects (next env self)) = [new_order true VTI]
    /\ buy_intent VTI (new_order true VTI).
Proof.
  intros env self Hflat Hv _. split; [|split; reflexivity].
  apply classify_bullish in Hv. fold (vti_up env self) in Hv.
  unfold state in Hflat. rewrite next_eq.
  destruct (order self) as [o|]; [destruct (isbuy o); discriminate|].
  cbn [truthy]. unfold position, Position_bool.
  destruct (psize (getposition env VTI) =? 0)%Z eqn:E0.
  - cbn [negb]. rewrite Hv. reflexivity.
  - cbn [andb] in Hflat.
    destruct (psize (getposition env VTI) >? 0)%Z; cbn [andb] in Hflat;
      [destruct (psize (getposition env TLT) =? 0)%Z|]; discriminate.
Qed.

Lemma tie_break_favours_vti_witness :
  let w := before_next (run (start both_cross strategy0) (quiet 20)) [] in
  submitted (effects (next (env_of w) (strat w))) = [new_order true VTI]
  /\ buy_intent VTI (new_order true VTI).
Proof.
  apply tie_break_favours_vti; vm_compute; reflexivity.
Defined.

(** C7: with fast window 10 and slow window 20, whatever the closes, no
    instrument is classified other than NoCross on a bar of index below
    19: the slow average is undefined there, the tests on it are false,
    and [next] run on such a bar submits nothing. *)
Theorem no_cross_before_bar_19 :
  forall (fd : Data -> list Q) (bk : Data -> Lot) (i : Z)
         (s self : SMAStrategy),
    __init__ params = Ok s ->
    indicators self = indicators s ->
    (i < 19)%Z ->
    crossover (bar_env fd bk i) (vti_fast_sma s) (vti_slow_sma s) = NoCross
    /\ crossover (bar_env fd bk i) (tlt_fast_sma s) (tlt_slow_sma s) = NoCross
    /\ submitted (effects (next (bar_env fd bk i) self)) = [].
Proof.
  intros fd bk i s self Hs Hi Hb.
  rewrite init_default in Hs. injection Hs as <-.
  injection Hi as Hvf Hvs Htf Hts. cbn in Hvf, Hvs, Htf, Hts.
  assert (Hnan : forall d,
            at_ (bar_env fd bk i) (SimpleMovingAverage d 20) 0 = nan).
  { intros d. cbn. apply sma_unfilled. lia. }
  split; [|split].
  - unfold crossover.
    change (vti_slow_sma strategy0) with (SimpleMovingAverage VTI 20).
    rewrite Hnan. apply classify_nan.
  - unfold crossover.
    change (tlt_slow_sma strategy0) with (SimpleMovingAverage TLT 20).
    rewrite Hnan. apply classify_nan.
  - rewrite next_eq. unfold vti_up, tlt_up, vti_down, tlt_down.
    rewrite Hvs, Hts, !Hnan, !crossed_above_nan, !crossed_below_nan.
    repeat match goal with
      | |- context [if ?c then _ else _] => destruct c
      end; reflexivity.
Qed.

Lemma no_cross_before_bar_19_witness :
  let env := bar_env both_cross (fun _ => no_holding) 18 in
  crossover env (vti_fast_sma strategy0) (vti_slow_sma strategy0) = NoCross
  /\ crossover env (tlt_fast_sma strategy0) (tlt_slow_sma strategy0)
     = NoCross
  /\ submitted (effects (next env strategy0)) = [].
Proof.
  apply no_cross_before_bar_19; [reflexivity | reflexivity | lia].
Defined.

(** C9, as the code has it: construction checks nothing.  For every
    configuration, non-positive window lengths included, [__init__]
    succeeds, with the marker clear and the window lengths taken as the
    periods of the moving averages. *)
Theorem construction_never_fails :
  forall prm : Params,
    exists s, __init__ prm = Ok s
      /\ order s = None
      /\ vti_fast_sma s = SimpleMovingAverage VTI (fast_period prm)
      /\ vti_slow_sma s = SimpleMovingAverage VTI (slow_period prm)
      /\ tlt_fast_sma s = SimpleMovingAverage TLT (fast_period prm)
      /\ tlt_slow_sma s = SimpleMovingAverage TLT (slow_period prm).
Proof.
  intros prm. eexists. repeat split; reflexivity.
Qed.

(** C9 fails as stated: with fast window -1 and slow window 0,
    construction does not fail. *)
Lemma nonpositive_windows_accepted :
  (fast_period bad_windows <= 0)%Z /\ (slow_period bad_windows <= 0)%Z
  /\ ~ (exists e, __init__ bad_windows = Raise e).
Proof.
  split; [|split]; [vm_compute; discriminate ..|].
  intros [e H]. discriminate H.
Qed.

(** C10: a notification with status Submitted or Accepted changes
    nothing: [self] is the same (marker, buyprice and buycomm included)
    and nothing is printed or submitted. *)
Theorem nonterminal_notification_is_noop :
  forall (env : Env) (self : SMAStrategy) (o : Order),
    In (status o) [Submitted; Accepted] ->
    self_after (notify_order o env self) = self
    /\ effects (notify_order o env self) = [].
Proof.
  intros env self o H. rewrite notify_order_nonterminal by exact H.
  split; reflexivity.
Qed.

Lemma nonterminal_notification_is_noop_witness :
  self_after (notify_order (new_order true VTI) (env_of long_tlt) awaiting)
    = awaiting
  /\ effects (notify_order (new_order true VTI) (env_of long_tlt) awaiting)
    = [].
Proof.
  apply nonterminal_notification_is_noop. cbn. auto.
Defined.

(** C3: with the Pending Order Marker set at the start of [next], the bar
    submits nothing and leaves [self] as it is; a bar submits at most one
    order; and along every run whose notifications carry the statuses the
    strategy handles, the broker never has more than one order
    outstanding. *)
Theorem pending_marker_gates :
  (forall (env : Env) (self : SMAStrategy),
      marker_set self ->
      submitted (effects (next env self)) = []
      /\ self_after (next env self) = self)
  /\ (forall (env : Env) (self : SMAStrategy),
      (length (submitted (effects (next env self))) <= 1)%nat)
  /\ (forall (fd : Data -> list Q) (prm : Params) (s : SMAStrategy)
             (bs : list (list (Status * OrderData))),
      __init__ prm = Ok s ->
      well_reported bs ->
      (length (pending (run (start fd s) bs)) <= 1)%nat).
Proof.
  split; [|split].
  - intros env self H. rewrite (next_pending env self H). split; reflexivity.
  - intros env self.
    destruct (next_outcome env self) as [[-> _]|(o & -> & _)]; cbn; lia.
  - intros fd prm s bs Hs Hr. apply tracked_length, tracked_run; [exact Hr|].
    apply tracked_start. injection Hs as <-. reflexivity.
Qed.

Lemma pending_marker_gates_witness :
  (submitted (effects (next (env_of long_tlt) awaiting)) = []
   /\ self_after (next (env_of long_tlt) awaiting) = awaiting)
  /\ (length (pending (run (start tlt_then_vti strategy0)
                         (quiet 21 ++ [fills 310 (31 # 40)]))) <= 1)%nat.
Proof.
  destruct pending_marker_gates as (Hgate & _ & Hone). split.
  - apply Hgate. discriminate.
  - apply (Hone tlt_then_vti params); [reflexivity|].
    repeat constructor.
Defined.


(** ** A closed round trip *)
Section RoundTrip.

Lemma state_flat env self :
  state env self = Some Flat ->
  order self = None
  /\ psize (getposition env VTI) = 0%Z
  /\ psize (getposition env TLT) = 0%Z.
Proof.
  unfold state. destruct (order self) as [o|].
  - destruct (isbuy o); discriminate.
  - destruct (psize (getposition env VTI) =? 0)%Z eqn:Ea;
      destruct (psize (getposition env TLT) =? 0)%Z eqn:Eb; cbn [andb].
    + intros _. apply Z.eqb_eq in Ea, Eb. auto.
    + rewrite andb_false_r. destruct (_ >? _)%Z; discriminate.
    + destruct (_ >? _)%Z; discriminate.
    + rewrite andb_false_r. discriminate.
Qed.

(** An order [next] leaves with the broker when none was outstanding. *)
Lemma call_next_submitted w o :
  pending w = [] -> pending (call next w) = [o] ->
  strat (call next w) = set_order (Some o) (strat w)
  /\ In o (submitted (effects (next (env_of w) (strat w)))).
Proof.
  unfold call. cbn [strat pending]. intros -> Hsub. cbn [app] in Hsub.
  destruct (next_outcome (env_of w) (strat w))
    as [[Hs _]|(o1 & Hs & Hf & _)]; rewrite Hs in *; [discriminate|].
  injection Hsub as ->. split; [exact Hf|now left].
Qed.

(** The fill of a buy that opens a holding. *)
Lemma notify_entry_fill w o ex :
  pending w = [o] -> isbuy o = true -> hsize (book w (data o)) = 0%Z ->
  let w' := notify w (Completed, ex) in
  strat w' =
    set_order None
      (set_bar_executed (Some (len (env_of w)))
         (set_buycomm (Some (comm ex))
            (set_buyprice (Some (price ex)) (strat w))))
  /\ book w' =
       update (data o)
         {| hsize := size o; hprice := price ex; hcomm := comm ex |} (book w)
  /\ pending w' = []
  /\ bars w' = bars w.
Proof.
  intros Hp Hb Hz. unfold notify. rewrite Hp. cbn [fst snd].
  unfold fill. cbn [with_status isbuy executed size]. rewrite Hb, Hz.
  cbn [Z.eqb]. unfold call. cbn [strat book pending bars set_broker].
  rewrite notify_order_completed by reflexivity.
  cbn [with_status isbuy executed]. rewrite Hb.
  cbn. repeat split.
Qed.

(** The fill of a sell that closes a holding: the trade is closed with
    its gross and net profit. *)
Lemma notify_exit_fill w o ex :
  pending w = [o] -> isbuy o = false ->
  (hsize (book w (data o)) - size o = 0)%Z ->
  let w' := notify w (Completed, ex) in
  let gross := ((price ex - hprice (book w (data o))) * inject_Z (size o))%Q in
  let net := (gross - (hcomm (book w (data o)) + comm ex))%Q in
  strat w' = set_order None (set_bar_executed (Some (len (env_of w))) (strat w))
  /\ book w' = update (data o) no_holding (book w)
  /\ pending w' = []
  /\ bars w' = bars w
  /\ out w' = out w
       ++ [Print (date0 (env_of w))
             (SELL_EXECUTED (price ex) (value ex) (comm ex));
           Print (date0 (env_of w)) (OPERATION_PROFIT gross net)].
Proof.
  intros Hp Hb Hz. unfold notify. rewrite Hp. cbn [fst snd].
  unfold fill. cbn [with_status isbuy executed size]. rewrite Hb, Hz.
  cbn [Z.eqb]. unfold call. cbn [strat book pending bars out set_broker].
  rewrite notify_order_completed by reflexivity.
  cbn [with_status isbuy executed]. rewrite Hb.
  cbn. rewrite <- app_assoc. repeat split.
Qed.

(** [next] decides from the marker and the lines alone: two strategies
    that agree on them have the same effects. *)
Lemma next_effects_same env s s' :
  order s = order s' ->
  vti_close s = vti_close s' -> tlt_close s = tlt_close s' ->
  indicators s = indicators s' ->
  effects (next env s) = effects (next env s').
Proof.
  intros Ho Hc0 Hc1 Hi. injection Hi as Hvf Hvs Htf Hts.
  rewrite !next_eq.
  unfold vti_up, tlt_up, vti_down, tlt_down, idles, creates, closes_line.
  rewrite Ho, Hc0, Hc1, Hvf, Hvs, Htf, Hts.
  repeat match goal with
    | |- context [if ?c then _ else _] => destruct c
    end; reflexivity.
Qed.

(** C8: a full round trip on VTI.  From Flat, [next] submits the buy
    (AwaitingEntry), its fill is notified (Holding), [next] on a later
    bar submits the sell (AwaitingExit), its fill is notified: the state
    is Flat again, with the marker, the outstanding orders and the held
    sizes of the start, and [next] acts from it as from the start; the
    profit line printed for the closed trade carries the net profit
    (exit price - entry price) * quantity minus the two commissions. *)
Theorem round_trip :
  forall (w0 : World) (o1 o3 : Order) (n1 n2 n3 : nat)
         (entry exit : OrderData),
    state (env_of w0) (strat w0) = Some Flat ->
    pending w0 = [] ->
    let w1 := call next w0 in
    pending w1 = [o1] ->
    buy_intent VTI o1 ->
    let w2 := notify (at_bar n1 w1) (Completed, entry) in
    let w3 := call next (at_bar n2 w2) in
    pending w3 = [o3] ->
    let w4 := notify (at_bar n3 w3) (Completed, exit) in
    state (env_of w1) (strat w1) = Some (AwaitingEntry VTI)
    /\ state (env_of w2) (strat w2) = Some (Holding VTI)
    /\ state (env_of w3) (strat w3) = Some (AwaitingExit VTI)
    /\ state (env_of w4) (strat w4) = Some Flat
    /\ order (strat w4) = order (strat w0)
    /\ pending w4 = pending w0
    /\ (forall d, hsize (book w4 d) = hsize (book w0 d))
    /\ (forall env,
          effects (next env (strat w4)) = effects (next env (strat w0)))
    /\ (let gross := ((price exit - price entry) * inject_Z stake)%Q in
        let net := (gross - (comm entry + comm exit))%Q in
        out w4 = out w3
          ++ [Print (date0 (env_of w4))
                (SELL_EXECUTED (price exit) (value exit) (comm exit));
              Print (date0 (env_of w4)) (OPERATION_PROFIT gross net)]).
Proof.
  intros w0 o1 o3 n1 n2 n3 entry exit Hflat Hp0 w1 Hp1 Hbuy w2 w3 Hp3 w4.
  destruct (state_flat _ _ Hflat) as (Ho0 & Ha0 & Hb0).
  destruct (call_next_submitted w0 o1 Hp0 Hp1) as [Hs1 Hin1].
  apply next_submits in Hin1. destruct Hin1 as [_ Hin1].
  assert (Eo1 : o1 = new_order true VTI).
  { destruct Hbuy as [Hb Hd].
    destruct Hin1 as [(-> & _)|[(-> & _)|[(-> & _)|(-> & _)]]];
      try reflexivity; discriminate. }
  clear Hin1.
  assert (Hbk1 : book w1 = book w0) by reflexivity.
  cbn [env_of bar_env getposition psize] in Ha0, Hb0.
  (* the entry fills *)
  destruct (notify_entry_fill (at_bar n1 w1) o1 entry)
    as (Hs2 & Hbk2 & Hp2 & _).
  { exact Hp1. }
  { now subst o1. }
  { subst o1. cbn [data new_order at_bar book]. now rewrite Hbk1. }
  fold w2 in Hs2, Hbk2, Hp2.
  cbn [at_bar strat book] in Hs2, Hbk2. fold w1 in Hs1.
  rewrite Hs1 in Hs2. rewrite Hbk1 in Hbk2.
  assert (Ha2 : hsize (book w2 VTI) = 1%Z).
  { rewrite Hbk2. subst o1. reflexivity. }
  assert (Hb2 : hsize (book w2 TLT) = 0%Z).
  { rewrite Hbk2. subst o1. exact Hb0. }
  (* the exit is created *)
  destruct (call_next_submitted (at_bar n2 w2) o3 Hp2 Hp3) as [Hs3 Hin3].
  fold w3 in Hs3. cbn [at_bar strat] in Hs3.
  apply next_submits in Hin3. destruct Hin3 as [_ Hin3].
  cbn [env_of bar_env getposition psize at_bar book] in Hin3.
  rewrite Ha2 in Hin3.
  assert (Eo3 : o3 = new_order false VTI).
  { destruct Hin3 as [(_ & H & _)|[(_ & H & _)|[(-> & _)|(_ & H & _)]]];
      try reflexivity; discriminate H. }
  clear Hin3.
  assert (Hbk3 : book w3 = book w2) by reflexivity.
  (* the exit fills *)
  destruct (notify_exit_fill (at_bar n3 w3) o3 exit)
    as (Hs4 & Hbk4 & Hp4 & Hbars4 & Hout4).
  { exact Hp3. }
  { now subst o3. }
  { subst o3. cbn [data new_order at_bar book size]. rewrite Hbk3, Ha2.
    reflexivity. }
  fold w4 in Hs4, Hbk4, Hp4, Hbars4, Hout4.
  cbn [at_bar strat book out] in Hs4, Hbk4, Hout4.
  assert (Henv4 : date0 (env_of w4) = date0 (env_of (at_bar n3 w3))).
  { unfold env_of. cbn [date0 bar_env]. now rewrite Hbars4. }
  rewrite <- Henv4 in Hout4.
  assert (Hlot : book w3 (data o3)
                 = {| hsize := 1; hprice := price entry;
                      hcomm := comm entry |}).
  { rewrite Hbk3, Hbk2. subst o1 o3. reflexivity. }
  rewrite Hlot in Hout4. cbn [hprice hcomm] in Hout4.
  assert (Hsz : size o3 = stake) by now subst o3.
  rewrite Hsz in Hout4.
  repeat split.
  - unfold state. rewrite Hs1. subst o1. reflexivity.
  - unfold state. rewrite Hs2. cbn [order set_order].
    cbn [env_of bar_env getposition psize]. rewrite Ha2, Hb2. reflexivity.
  - unfold state. rewrite Hs3. subst o3. reflexivity.
  - unfold state. rewrite Hs4. cbn [order set_order].
    cbn [env_of bar_env getposition psize]. rewrite Hbk4, Hbk3.
    subst o3. cbn [data new_order update Data_eqb hsize no_holding].
    rewrite Hb2. reflexivity.
  - rewrite Hs4, Ho0. reflexivity.
  - rewrite Hp4, Hp0. reflexivity.
  - intros d. rewrite Hbk4, Hbk3. subst o3.
    destruct d; cbn [data new_order update Data_eqb hsize no_holding].
    + now rewrite Ha0.
    + now rewrite Hb2, Hb0.
  - intros env. apply next_effects_same;
      rewrite Hs4, Hs3, Hs2; cbn; auto.
  - exact Hout4.
Qed.

Lemma round_trip_witness :
  let w0 := before_next (run (start up_then_down strategy0) (quiet 20)) [] in
  let entry := {| price := 310; value := 310; comm := 31 # 40 |} in
  let exit := {| price := 1; value := 1; comm := 1 # 400 |} in
  let w1 := call next w0 in
  let w2 := notify (at_bar 22 w1) (Completed, entry) in
  let w3 := call next (at_bar 24 w2) in
  let w4 := notify (at_bar 25 w3) (Completed, exit) in
  state (env_of w1) (strat w1) = Some (AwaitingEntry VTI)
  /\ state (env_of w2) (strat w2) = Some (Holding VTI)
  /\ state (env_of w3) (strat w3) = Some (AwaitingExit VTI)
  /\ state (env_of w4) (strat w4) = Some Flat
  /\ order (strat w4) = order (strat w0)
  /\ pending w4 = pending w0
  /\ (forall d, hsize (book w4 d) = hsize (book w0 d))
  /\ (forall env,
        effects (next env (strat w4)) = effects (next env (strat w0)))
  /\ (let gross := ((price exit - price entry) * inject_Z stake)%Q in
      let net := (gross - (comm entry + comm exit))%Q in
      out w4 = out w3
        ++ [Print (date0 (env_of w4))
              (SELL_EXECUTED (price exit) (value exit) (comm exit));
            Print (date0 (env_of w4)) (OPERATION_PROFIT gross net)]).
Proof.
  apply (round_trip
           (before_next (run (start up_then_down strategy0) (quiet 20)) [])
           (new_order true VTI) (new_order false VTI) 22 24 25).
  - vm_compute. reflexivity.
  - reflexivity.
  - vm_compute. reflexivity.
  - split; reflexivity.
  - vm_compute. reflexivity.
Defined.

(** The record of the entry fill outlives the round trip: [buyprice] and
    [buycomm] are not reset by the exit. *)
Lemma exit_keeps_entry_record env self o :
  status o = Completed -> isbuy o = false ->
  buyprice (self_after (notify_order o env self)) = buyprice self
  /\ buycomm (self_after (notify_order o env self)) = buycomm self.
Proof.
  intros Hst Hb. rewrite notify_order_completed by exact Hst.
  cbn. rewrite Hb. split; reflexivity.
Qed.

End RoundTrip.

(** ** One position at a time *)
Section OnePosition.

Variable env : Env.
Variable self : SMAStrategy.

(** A sell is submitted only for an instrument held long, with no order
    pending. *)
Lemma sell_only_when_long (o : Order) :
  In o (submitted (effects (next env self))) ->
  isbuy o = false ->
  ~ marker_set self /\ (psize (getposition env (data o)) > 0)%Z.
Proof.
  intros Hin Hsell. apply next_submits in Hin. destruct Hin as [Ho Hin].
  split; [unfold marker_set; tauto|].
  destruct Hin as [(-> & _)|[(-> & _)|[(-> & H & _)|(-> & _ & H & _)]]];
    try discriminate Hsell; exact H.
Qed.

(** A buy is submitted only when no VTI is held; the TLT position is not
    looked at. *)
Lemma buy_only_when_vti_flat (o : Order) :
  In o (submitted (effects (next env self))) ->
  isbuy o = true ->
  ~ marker_set self /\ psize (getposition env VTI) = 0%Z.
Proof.
  intros Hin Hbuy. apply next_submits in Hin. destruct Hin as [Ho Hin].
  split; [unfold marker_set; tauto|].
  destruct Hin as [(-> & H & _)|[(-> & H & _)|[(-> & _)|(-> & _)]]];
    try discriminate Hbuy; exact H.
Qed.

(** With no order pending, no VTI held and a cross of VTI's fast average
    above its slow one, VTI is bought, whatever is held of TLT. *)
Lemma buys_vti_whatever_tlt :
  order self = None ->
  psize (getposition env VTI) = 0%Z ->
  vti_up env self = true ->
  submitted (effects (next env self)) = [new_order true VTI].
Proof.
  intros Ho Hz Hv. rewrite next_eq, Ho. cbn [truthy].
  unfold position, Position_bool. rewrite Hz. cbn. now rewrite Hv.
Qed.

End OnePosition.

(** C1 fails on the code: with TLT bought on bar 20 and filled on bar 21,
    the state is Holding(TLT); VTI crosses on bar 21 and [next] submits a
    buy of VTI; once it fills both instruments are held. *)
Theorem second_position_opened :
  state (env_of long_tlt) (strat long_tlt) = Some (Holding TLT)
  /\ psize (getposition (env_of long_tlt) TLT) = 1%Z
  /\ submitted (effects (next (env_of long_tlt) (strat long_tlt)))
     = [new_order true VTI]
  /\ (let w := run (start tlt_then_vti strategy0)
                 (quiet 21 ++ [fills 310 (31 # 40); fills 310 (31 # 40)]) in
      hsize (book w VTI) = 1%Z /\ hsize (book w TLT) = 1%Z
      /\ state (env_of w) (strat w) = None).
Proof.
  vm_compute. repeat split; reflexivity.
Qed.

(** C2 fails on the code: in the state Holding(TLT), which is not Flat,
    [next] submits an order that is a buy intent for VTI. *)
Theorem buy_submitted_while_holding :
  state (env_of long_tlt) (strat long_tlt) <> Some Flat
  /\ exists o,
       In o (submitted (effects (next (env_of long_tlt) (strat long_tlt))))
       /\ buy_intent VTI o.
Proof.
  split.
  - vm_compute. discriminate.
  - exists (new_order true VTI). split; [|split; reflexivity].
    rewrite buys_vti_whatever_tlt; [now left| | |]; vm_compute; reflexivity.
Qed.

(** * Further properties of the callbacks *)

(** ** [next] *)
Section NextFacts.

Variable env : Env.
Variable self : SMAStrategy.

(** X1: the decision table of [next].  An order is submitted exactly in
    these four cases, all with no order pending: the VTI buy when no VTI
    is held and VTI's fast average crossed above; the TLT buy when no VTI
    is held, VTI did not cross above and TLT did; the VTI sell when VTI
    is held long and crossed below; the TLT sell when the VTI position is
    negative, TLT is held long and crossed below. *)
Theorem next_decision_table (o : Order) :
  In o (submitted (effects (next env self))) <->
  order self = None /\
  ( (o = new_order true VTI
      /\ psize (getposition env VTI) = 0%Z /\ vti_up env self = true)
    \/ (o = new_order true TLT
      /\ psize (getposition env VTI) = 0%Z /\ vti_up env self = false
      /\ tlt_up env self = true)
    \/ (o = new_order false VTI
      /\ (psize (getposition env VTI) > 0)%Z /\ vti_down env self = true)
    \/ (o = new_order false TLT
      /\ (psize (getposition env VTI) < 0)%Z
      /\ (psize (getposition env TLT) > 0)%Z /\ tlt_down env self = true) ).
Proof.
  split; [apply next_submits|].
  intros [Ho H]. rewrite next_eq, Ho. cbn [truthy].
  unfold position, Position_bool.
  destruct H as [(-> & Hz & Hv)|[(-> & Hz & Hv & Ht)|[(-> & Hp & Hv)
                |(-> & Hn & Hp & Ht)]]].
  - rewrite Hz, Hv. cbn. auto.
  - rewrite Hz, Hv, Ht. cbn. auto.
  - assert (E0 : (psize (getposition env VTI) =? 0)%Z = false)
      by (apply Z.eqb_neq; lia).
    assert (E1 : (psize (getposition env VTI) >? 0)%Z = true)
      by (apply Z.gtb_lt; lia).
    rewrite E0, E1, Hv. cbn. auto.
  - assert (E0 : (psize (getposition env VTI) =? 0)%Z = false)
      by (apply Z.eqb_neq; lia).
    assert (E1 : (psize (getposition env VTI) >? 0)%Z = false)
      by (rewrite Z.gtb_ltb; apply Z.ltb_ge; lia).
    assert (E2 : (psize (getposition env TLT) >? 0)%Z = true)
      by (apply Z.gtb_lt; lia).
    rewrite E0, E1, E2, Ht. cbn. auto.
Qed.

(** X2: unless the VTI position is negative, [next] never sells TLT:
    every order it submits is a buy or is for VTI, whatever is held of
    TLT and whatever the TLT averages show. *)
Theorem tlt_is_never_sold (o : Order) :
  (psize (getposition env VTI) >= 0)%Z ->
  In o (submitted (effects (next env self))) ->
  isbuy o = true \/ data o = VTI.
Proof.
  intros Hnn Hin. apply next_submits in Hin. destruct Hin as [_ Hin].
  destruct Hin as [(-> & _)|[(-> & _)|[(-> & _)|(-> & Hneg & _)]]];
    try (left; reflexivity); try (right; reflexivity); lia.
Qed.

(** X3: the log of [next] follows what it does.  It prints the closes
    first, once; after them it prints one [... CREATE] line for each order
    it submits, the one of that order's side and instrument, and nothing
    else. *)
Theorem next_logs_what_it_submits :
  printed (effects (next env self)) =
  CLOSES (at_ env (vti_close self) 0) (at_ env (tlt_close self) 0)
  :: map (create_text env self) (submitted (effects (next env self))).
Proof.
  rewrite next_eq.
  repeat match goal with
    | |- context [if ?c then _ else _] => destruct c
    end; reflexivity.
Qed.

(** X4: [next] writes [self.order] and nothing else.  The parameters,
    the lines, [buyprice], [buycomm] and [bar_executed] are those of
    before; the marker is the submitted order when there is one and is
    unchanged otherwise. *)
Theorem next_only_writes_the_marker :
  wiring (self_after (next env self)) = wiring self
  /\ buyprice (self_after (next env self)) = buyprice self
  /\ buycomm (self_after (next env self)) = buycomm self
  /\ bar_executed (self_after (next env self)) = bar_executed self
  /\ order (self_after (next env self)) =
     match submitted (effects (next env self)) with
     | [] => order self
     | o :: _ => Some o
     end.
Proof.
  destruct (next_outcome env self) as [[Hs Hf]|(o & Hs & Hf & _)];
    rewrite Hs, Hf; repeat split.
Qed.

End NextFacts.

Lemma tlt_is_never_sold_witness :
  isbuy (new_order true VTI) = true \/ data (new_order true VTI) = VTI.
Proof.
  apply (tlt_is_never_sold (env_of long_tlt) (strat long_tlt)).
  - vm_compute. discriminate.
  - vm_compute. auto.
Defined.

(** X5: what [next] prints and submits depends on [self] through the
    marker and the lines only: two strategies that agree on them, whatever
    their [buyprice], [buycomm], [bar_executed] and parameters, have the
    same effects on every bar. *)
Theorem next_ignores_the_fill_record :
  forall (env : Env) (s s' : SMAStrategy),
    order s = order s' ->
    vti_close s = vti_close s' ->
    tlt_close s = tlt_close s' ->
    indicators s = indicators s' ->
    effects (next env s) = effects (next env s').
Proof.
  intros env s s' Ho Hc0 Hc1 Hi. now apply next_effects_same.
Qed.

Lemma next_ignores_the_fill_record_witness :
  effects (next (env_of long_tlt) (strat long_tlt))
  = effects (next (env_of long_tlt) strategy0).
Proof.
  apply next_ignores_the_fill_record; reflexivity.
Defined.

(** ** [notify_order] *)
Section NotifyOrderFacts.

Variable env : Env.
Variable self : SMAStrategy.
Variable o : Order.

(** X6: a notification with status Created, Partial or Expired falls
    through both tests of [notify_order]: the marker is cleared, nothing
    is logged and no other attribute changes. *)
Theorem unnamed_status_clears_silently :
  In (status o) [Created; Partial; Expired] ->
  notify_order o env self = (tt, set_order None self, []).
Proof.
  intros H. unfold notify_order.
  destruct H as [<-|[<-|[<-|[]]]]; reflexivity.
Qed.

(** X7: [notify_order] never looks at the order the marker holds.  For
    every status other than Submitted and Accepted the outcome is the
    same whatever [self.order] was: the marker is cleared even when the
    notified order is not the pending one. *)
Theorem notified_order_is_not_matched (x y : option Order) :
  ~ In (status o) [Submitted; Accepted] ->
  notify_order o env (set_order x self) = notify_order o env (set_order y self)
  /\ order (self_after (notify_order o env (set_order x self))) = None.
Proof.
  intros H. split; [|now apply notify_order_clears].
  unfold notify_order.
  destruct (status o); cbn in *; try reflexivity; try tauto;
    destruct (isbuy o); reflexivity.
Qed.

(** X8: what [notify_order] can change.  The parameters and the lines
    never change and no order is submitted; [buyprice] and [buycomm]
    change only on a completed buy, to the executed price and commission;
    [bar_executed] changes only on a completed order, to [len(self)]. *)
Theorem notify_order_frame :
  wiring (self_after (notify_order o env self)) = wiring self
  /\ submitted (effects (notify_order o env self)) = []
  /\ ((buyprice (self_after (notify_order o env self)) = buyprice self
       /\ buycomm (self_after (notify_order o env self)) = buycomm self)
      \/ (status o = Completed /\ isbuy o = true
          /\ buyprice (self_after (notify_order o env self))
             = Some (price (executed o))
          /\ buycomm (self_after (notify_order o env self))
             = Some (comm (executed o))))
  /\ (bar_executed (self_after (notify_order o env self)) = bar_executed self
      \/ (status o = Completed
          /\ bar_executed (self_after (notify_order o env self))
             = Some (len env))).
Proof.
  unfold notify_order.
  destruct (status o) eqn:Est; cbn;
    try (repeat split; left; repeat split; reflexivity).
  destruct (isbuy o) eqn:Eb; cbn; repeat split.
  - right. repeat split.
  - right. repeat split.
  - left. repeat split.
  - right. repeat split.
Qed.

End NotifyOrderFacts.

Lemma unnamed_status_clears_silently_witness :
  notify_order (with_status Partial nothing (new_order true VTI))
    (env_of long_tlt) awaiting
  = (tt, set_order None awaiting, []).
Proof.
  apply unnamed_status_clears_silently. cbn. auto.
Defined.

Lemma notified_order_is_not_matched_witness :
  notify_order (with_status Rejected nothing (new_order true VTI))
    (env_of long_tlt) (set_order (Some (new_order false TLT)) strategy0)
  = notify_order (with_status Rejected nothing (new_order true VTI))
      (env_of long_tlt) (set_order None strategy0)
  /\ order (self_after
             (notify_order (with_status Rejected nothing (new_order true VTI))
                (env_of long_tlt)
                (set_order (Some (new_order false TLT)) strategy0)))
     = None.
Proof.
  apply notified_order_is_not_matched. cbn. intuition discriminate.
Defined.

(** ** The two tests *)
Section TestFacts.

(** X9: an undefined value never crosses.  If any of the four values a
    test reads is NaN, neither test holds and the bar is classified
    NoCross. *)
Theorem undefined_never_crosses :
  forall a b c : num,
    classify nan a b c = NoCross
    /\ classify a nan b c = NoCross
    /\ classify a b nan c = NoCross
    /\ classify a b c nan = NoCross.
Proof.
  intros a b c. unfold classify, crossed_above, crossed_below, gt, lt, le, ge.
  split; [|split; [|split]].
  - reflexivity.
  - destruct a; reflexivity.
  - destruct a, b; cbn; rewrite ?andb_false_r; reflexivity.
  - destruct a, b, c; cbn; rewrite ?andb_false_r; reflexivity.
Qed.

(** X10: equal averages.  A bar on which the fast and the slow value are
    equal is never a cross; a bar that follows one is a cross as soon as
    the two values differ: bullish when the fast value is above, bearish
    when it is below. *)
Theorem equal_averages :
  forall f0 s0 f1 s1 : Q,
    (f0 == s0 ->
     classify (Some f0) (Some s0) (Some f1) (Some s1) = NoCross)
    /\ (f1 == s1 -> s0 < f0 ->
        classify (Some f0) (Some s0) (Some f1) (Some s1) = BullishCross)
    /\ (f1 == s1 -> f0 < s0 ->
        classify (Some f0) (Some s0) (Some f1) (Some s1) = BearishCross).
Proof.
  intros f0 s0 f1 s1. split; [|split].
  - intros E. unfold classify.
    assert (Ha : crossed_above (Some f0) (Some s0) (Some f1) (Some s1)
                 = false).
    { unfold crossed_above.
      destruct (gt (Some f0) (Some s0)) eqn:G; [|reflexivity].
      apply gt_Some in G. rewrite E in G. now apply Qlt_irrefl in G. }
    assert (Hb : crossed_below (Some f0) (Some s0) (Some f1) (Some s1)
                 = false).
    { unfold crossed_below.
      destruct (lt (Some f0) (Some s0)) eqn:G; [|reflexivity].
      apply lt_Some in G. rewrite E in G. now apply Qlt_irrefl in G. }
    now rewrite Ha, Hb.
  - intros E H. apply classify_bullish. unfold crossed_above.
    apply andb_true_iff. split; [now apply gt_Some|].
    apply le_Some. rewrite E. apply Qle_refl.
  - intros E H. apply classify_bearish. unfold crossed_below.
    apply andb_true_iff. split; [now apply lt_Some|].
    apply ge_Some. rewrite E. apply Qle_refl.
Qed.

Lemma equal_averages_witness :
  classify (Some 1) (Some 1) (Some 1) (Some 2) = NoCross
  /\ classify (Some 2) (Some 1) (Some 1) (Some 1) = BullishCross
  /\ classify (Some 1) (Some 2) (Some 1) (Some 1) = BearishCross.
Proof.
  split; [|split].
  - apply (proj1 (equal_averages 1 1 1 2)). reflexivity.
  - apply (proj1 (proj2 (equal_averages 2 1 1 1))); reflexivity.
  - apply (proj2 (proj2 (equal_averages 1 2 1 1))); reflexivity.
Defined.

End TestFacts.

(** ** Before the slow window has a previous value *)
Section Warmup.

Lemma crossed_above_prev_nan f0 s0 f1 : crossed_above f0 s0 f1 nan = false.
Proof.
  unfold crossed_above, le. destruct f1; now rewrite andb_false_r.
Qed.

Lemma crossed_below_prev_nan f0 s0 f1 : crossed_below f0 s0 f1 nan = false.
Proof.
  unfold crossed_below, ge. destruct f1; now rewrite andb_false_r.
Qed.

(** X11: with the default windows the first bar on which [next] can
    submit an order is bar 20, not bar 19: both tests read the previous
    value of the 20-bar average, which is undefined up to bar 19, so on
    every bar of index below 20 both instruments are NoCross and nothing
    is submitted, whatever the closes and the state. *)
Theorem no_order_before_bar_20 :
  forall (fd : Data -> list Q) (bk : Data -> Lot) (i : Z)
         (s self : SMAStrategy),
    __init__ params = Ok s ->
    indicators self = indicators s ->
    (i < 20)%Z ->
    crossover (bar_env fd bk i) (vti_fast_sma s) (vti_slow_sma s) = NoCross
    /\ crossover (bar_env fd bk i) (tlt_fast_sma s) (tlt_slow_sma s) = NoCross
    /\ submitted (effects (next (bar_env fd bk i) self)) = [].
Proof.
  intros fd bk i s self Hs Hi Hb.
  rewrite init_default in Hs. injection Hs as <-.
  injection Hi as Hvf Hvs Htf Hts. cbn in Hvf, Hvs, Htf, Hts.
  assert (Hnan : forall d,
            at_ (bar_env fd bk i) (SimpleMovingAverage d 20) (-1) = nan).
  { intros d. cbn. apply sma_unfilled. lia. }
  assert (Hno : forall d f,
            classify (at_ (bar_env fd bk i) f 0)
              (at_ (bar_env fd bk i) (SimpleMovingAverage d 20) 0)
              (at_ (bar_env fd bk i) f (-1))
              (at_ (bar_env fd bk i) (SimpleMovingAverage d 20) (-1))
            = NoCross).
  { intros d f. unfold classify.
    now rewrite Hnan, crossed_above_prev_nan, crossed_below_prev_nan. }
  split; [|split].
  - apply Hno.
  - apply Hno.
  - rewrite next_eq. unfold vti_up, tlt_up, vti_down, tlt_down.
    rewrite Hvs, Hts, !Hnan, !crossed_above_prev_nan, !crossed_below_prev_nan.
    repeat match goal with
      | |- context [if ?c then _ else _] => destruct c
      end; reflexivity.
Qed.

Lemma no_order_before_bar_20_witness :
  let env := bar_env both_cross (fun _ => no_holding) 19 in
  crossover env (vti_fast_sma strategy0) (vti_slow_sma strategy0) = NoCross
  /\ crossover env (tlt_fast_sma strategy0) (tlt_slow_sma strategy0)
     = NoCross
  /\ submitted (effects (next env strategy0)) = [].
Proof.
  apply no_order_before_bar_20; [reflexivity | reflexivity | lia].
Defined.

End Warmup.

(** ** Positions along a run *)
Section LongOnly.

Lemma submitted_app a b : submitted (a ++ b) = submitted a ++ submitted b.
Proof.
  induction a as [|[dt txt|o] a IH]; cbn; [reflexivity|exact IH|].
  now rewrite IH.
Qed.

Lemma long_only_start fd s : order s = None -> long_only (start fd s).
Proof.
  intros H. split; [now apply tracked_start|].
  cbn. repeat split; try lia; intros o [].
Qed.

Lemma long_only_at_bar n w : long_only w -> long_only (at_bar n w).
Proof. exact (fun H => H). Qed.

Lemma long_only_next w : long_only w -> long_only (call next w).
Proof.
  intros (Ht & Hv & Hl & Hp & Hs).
  split; [now apply tracked_next|].
  split; [exact Hv|]. split; [exact Hl|].
  unfold call. cbn [pending out book].
  pose proof (next_submits (env_of w) (strat w)) as Hsub.
  destruct (next_outcome (env_of w) (strat w)) as [[E _]|(o & E & _ & Ho)].
  - rewrite E in *. rewrite app_nil_r, submitted_app, E, app_nil_r.
    split; assumption.
  - rewrite E in *.
    assert (Hpe : pending w = []).
    { unfold tracked in Ht. now rewrite Ho in Ht. }
    rewrite Hpe. cbn [app].
    destruct (Hsub o (or_introl eq_refl)) as [_ Hcase].
    cbn [env_of bar_env getposition psize] in Hcase.
    split.
    + intros o' [<-|[]].
      destruct Hcase as [(-> & Hz & _)|[(-> & _)|[(-> & Hpos & _)
                        |(-> & Hneg & _)]]]; cbn.
      * repeat split; auto; discriminate.
      * repeat split; discriminate.
      * repeat split; try discriminate; lia.
      * lia.
    + rewrite submitted_app, E. intros o' Hin.
      apply in_app_or in Hin. destruct Hin as [Hin|[<-|[]]]; [auto|].
      destruct Hcase as [(-> & _)|[(-> & _)|[(-> & _)|(-> & Hneg & _)]]];
        cbn; auto; lia.
Qed.

Lemma out_call_notify_order w o :
  submitted (out (call (notify_order o) w)) = submitted (out w).
Proof.
  unfold call. cbn [out]. rewrite submitted_app.
  now rewrite notify_order_submits_nothing, app_nil_r.
Qed.

Lemma out_call_notify_trade w t :
  submitted (out (call (notify_trade t) w)) = submitted (out w).
Proof.
  unfold call. cbn [out]. rewrite submitted_app.
  now rewrite (proj1 (notify_trade_submits_nothing _ _ _)), app_nil_r.
Qed.

Lemma pending_call_notify_order w o :
  pending (call (notify_order o) w) = pending w.
Proof.
  unfold call. cbn [pending].
  now rewrite notify_order_submits_nothing, app_nil_r.
Qed.

Lemma pending_call_notify_trade w t :
  pending (call (notify_trade t) w) = pending w.
Proof.
  unfold call. cbn [pending].
  now rewrite (proj1 (notify_trade_submits_nothing _ _ _)), app_nil_r.
Qed.

(** The book, the outstanding orders and the submitted orders after one
    notification about the only outstanding order. *)
Lemma notify_shape w o st ex :
  pending w = [o] ->
  let w' := notify w (st, ex) in
  submitted (out w') = submitted (out w)
  /\ ((st = Completed
       /\ pending w' = []
       /\ book w' = update (data o)
                      (fst (fill (with_status st ex o) (book w (data o))))
                      (book w))
      \/ (In st [Canceled; Expired; Margin; Rejected]
          /\ pending w' = [] /\ book w' = book w)
      \/ (In st [Created; Submitted; Accepted; Partial]
          /\ pending w' = [with_status st ex o] /\ book w' = book w)).
Proof.
  intros Hp w'. subst w'. unfold notify. rewrite Hp. cbn [fst snd].
  destruct st.
  all: try (rewrite out_call_notify_order, pending_call_notify_order;
            split; [reflexivity|]; cbn; intuition auto; fail).
  destruct (fill _ _) as [h [t|]]; cbn [fst].
  - rewrite out_call_notify_trade, out_call_notify_order.
    rewrite pending_call_notify_trade, pending_call_notify_order.
    split; [reflexivity|]. left. repeat split.
  - rewrite out_call_notify_order, pending_call_notify_order.
    split; [reflexivity|]. left. repeat split.
Qed.

Lemma long_only_notify w n :
  reported (fst n) = true -> long_only w -> long_only (notify w n).
Proof.
  intros Hr Hlo. pose proof Hlo as (Ht & Hv & Hl & Hp & Hs).
  split; [now apply tracked_notify|].
  destruct (pending w) as [|o rest] eqn:Ep.
  { unfold notify. rewrite Ep. rewrite <- Ep in Hp.
    exact (conj Hv (conj Hl (conj Hp Hs))). }
  assert (Hrest : rest = []).
  { unfold tracked in Ht. rewrite Ep in Ht.
    destruct (order (strat w)); [|discriminate].
    destruct Ht as [o1 Ht]. congruence. }
  subst rest. destruct n as [st ex]. cbn [fst] in Hr.
  destruct (Hp o (or_introl eq_refl)) as (Hsz & Hbuy & Hsell).
  destruct (notify_shape w o st ex Ep) as [Hout Hcase].
  rewrite Hout.
  destruct Hcase as [(-> & Hpe & Hbk)|[(Hst & Hpe & Hbk)|(Hst & Hpe & Hbk)]];
    rewrite Hpe, Hbk.
  - (* filled *)
    unfold fill. cbn [with_status isbuy executed size]. rewrite Hsz.
    destruct (isbuy o) eqn:Eb.
    + destruct (data o) eqn:Ed; cbn [update Data_eqb].
      * rewrite (Hbuy eq_refl eq_refl). cbn [Z.eqb fst hsize].
        refine (conj _ (conj Hl (conj _ Hs))); [lia|intros o' []].
      * destruct (hsize (book w TLT) =? 0)%Z; cbn [fst hsize];
          (refine (conj Hv (conj _ (conj _ Hs))); [lia|intros o' []]).
    + destruct (Hsell eq_refl) as [Ed H1]. rewrite Ed, H1.
      cbn [Z.sub Z.eqb Z.opp Z.add Z.pos_sub fst update Data_eqb
             hsize no_holding].
      refine (conj _ (conj Hl (conj _ Hs))); [lia|intros o' []].
  - refine (conj Hv (conj Hl (conj _ Hs))). intros o' [].
  - refine (conj Hv (conj Hl (conj _ Hs))).
    intros o' [<-|[]]. cbn [with_status size isbuy data].
    exact (conj Hsz (conj Hbuy Hsell)).
Qed.

Lemma long_only_notifications ns : forall w,
  Forall (fun n => reported (fst n) = true) ns ->
  long_only w -> long_only (fold_left notify ns w).
Proof.
  induction ns as [|n ns IH]; intros w Hr H; [exact H|].
  inversion Hr; subst. cbn. apply IH; [assumption|].
  now apply long_only_notify.
Qed.

Lemma long_only_step w ns :
  Forall (fun n => reported (fst n) = true) ns ->
  long_only w -> long_only (step w ns).
Proof.
  intros Hr H. unfold step.
  destruct (_ <=? _)%nat; [exact H|].
  pose proof (long_only_notifications ns (advance w) Hr
                (long_only_at_bar _ w H)) as H1.
  destruct (_ <? _)%Z; [exact H1|].
  now apply long_only_next.
Qed.

Lemma long_only_run bs : forall w,
  well_reported bs -> long_only w -> long_only (run w bs).
Proof.
  induction bs as [|ns bs IH]; intros w Hr H; [exact H|].
  inversion Hr; subst. cbn. apply IH; [assumption|].
  now apply long_only_step.
Qed.

(** The TLT holding does not shrink. *)
Lemma tlt_grows_notify w n :
  reported (fst n) = true -> long_only w ->
  (hsize (book w TLT) <= hsize (book (notify w n) TLT))%Z.
Proof.
  intros Hr (Ht & Hv & Hl & Hp & Hs).
  destruct (pending w) as [|o rest] eqn:Ep.
  { unfold notify. rewrite Ep. lia. }
  assert (Hrest : rest = []).
  { unfold tracked in Ht. rewrite Ep in Ht.
    destruct (order (strat w)); [|discriminate].
    destruct Ht as [o1 Ht]. congruence. }
  subst rest. destruct n as [st ex].
  destruct (Hp o (or_introl eq_refl)) as (Hsz & Hbuy & Hsell).
  destruct (notify_shape w o st ex Ep) as [_ Hcase].
  destruct Hcase as [(-> & _ & Hbk)|[(_ & _ & Hbk)|(_ & _ & Hbk)]];
    rewrite Hbk; try lia.
  destruct (data o) eqn:Ed; cbn [update Data_eqb]; [lia|].
  unfold fill. cbn [with_status isbuy executed size]. rewrite Hsz.
  destruct (isbuy o) eqn:Eb.
  - destruct (hsize (book w TLT) =? 0)%Z eqn:E0; cbn [fst hsize]; [|lia].
    apply Z.eqb_eq in E0. lia.
  - destruct (Hsell eq_refl) as [Ed' _]. congruence.
Qed.

Lemma tlt_grows_notifications ns : forall w,
  Forall (fun n => reported (fst n) = true) ns -> long_only w ->
  (hsize (book w TLT) <= hsize (book (fold_left notify ns w) TLT))%Z.
Proof.
  induction ns as [|n ns IH]; intros w Hr H; [cbn; lia|].
  inversion Hr; subst. cbn.
  pose proof (tlt_grows_notify w n H2 H).
  pose proof (IH (notify w n) H3 (long_only_notify w n H2 H)). lia.
Qed.

Lemma tlt_grows_step w ns :
  Forall (fun n => reported (fst n) = true) ns -> long_only w ->
  (hsize (book w TLT) <= hsize (book (step w ns) TLT))%Z.
Proof.
  intros Hr H. unfold step.
  destruct (_ <=? _)%nat; [lia|].
  pose proof (tlt_grows_notifications ns (advance w) Hr
                (long_only_at_bar _ w H)) as H1.
  destruct (_ <? _)%Z; exact H1.
Qed.

Lemma tlt_grows_run bs : forall w,
  well_reported bs -> long_only w ->
  (hsize (book w TLT) <= hsize (book (run w bs) TLT))%Z.
Proof.
  induction bs as [|ns bs IH]; intros w Hr H; [cbn; lia|].
  inversion Hr; subst. change (run w (ns :: bs)) with (run (step w ns) bs).
  pose proof (tlt_grows_step w ns H2 H).
  pose proof (IH (step w ns) H3 (long_only_step w ns H2 H)). lia.
Qed.

(** X12: along every run of a constructed strategy the VTI position is 0
    or 1 and the TLT position is never negative, and no sell order for
    TLT is ever submitted: every order of the run is a buy or is for
    VTI. *)
Theorem run_stays_long_only :
  forall (fd : Data -> list Q) (prm : Params) (s : SMAStrategy)
         (bs : list (list (Status * OrderData))),
    __init__ prm = Ok s ->
    well_reported bs ->
    let w := run (start fd s) bs in
    (0 <= hsize (book w VTI) <= 1)%Z
    /\ (0 <= hsize (book w TLT))%Z
    /\ (forall o, In o (submitted (out w)) -> isbuy o = true \/ data o = VTI).
Proof.
  intros fd prm s bs Hs Hr w.
  assert (Hlo : long_only w).
  { apply long_only_run; [exact Hr|]. apply long_only_start.
    injection Hs as <-. reflexivity. }
  destruct Hlo as (_ & Hv & Hl & _ & Hsub). auto.
Qed.

Lemma run_stays_long_only_witness :
  let w := run (start tlt_then_vti strategy0)
             (quiet 21 ++ [fills 310 (31 # 40); fills 310 (31 # 40)]) in
  (0 <= hsize (book w VTI) <= 1)%Z
  /\ (0 <= hsize (book w TLT))%Z
  /\ (isbuy (new_order true TLT) = true \/ data (new_order true TLT) = VTI).
Proof.
  destruct (run_stays_long_only tlt_then_vti params strategy0
              (quiet 21 ++ [fills 310 (31 # 40); fills 310 (31 # 40)])
              eq_refl) as (Hv & Hl & Hsub).
  - repeat constructor.
  - split; [exact Hv|]. split; [exact Hl|].
    apply Hsub. vm_compute. auto.
Defined.

(** X13: a TLT position is never reduced.  Along every run, the TLT
    holding after more bars is at least the holding before them: once
    TLT is bought the strategy keeps it to the end of the run. *)
Theorem tlt_is_held_to_the_end :
  forall (fd : Data -> list Q) (prm : Params) (s : SMAStrategy)
         (bs more : list (list (Status * OrderData))),
    __init__ prm = Ok s ->
    well_reported bs ->
    well_reported more ->
    (hsize (book (run (start fd s) bs) TLT)
     <= hsize (book (run (start fd s) (bs ++ more)) TLT))%Z.
Proof.
  intros fd prm s bs more Hs Hr Hm.
  unfold run at 2. rewrite fold_left_app. fold (run (start fd s) bs).
  apply (tlt_grows_run more); [exact Hm|].
  apply long_only_run; [exact Hr|]. apply long_only_start.
  injection Hs as <-. reflexivity.
Qed.

Lemma tlt_is_held_to_the_end_witness :
  hsize (book (run (start tlt_then_vti strategy0)
                 (quiet 21 ++ [fills 310 (31 # 40)])) TLT) = 1%Z
  /\ (hsize (book (run (start tlt_then_vti strategy0)
                     (quiet 21 ++ [fills 310 (31 # 40)])) TLT)
      <= hsize (book (run (start tlt_then_vti strategy0)
                        ((quiet 21 ++ [fills 310 (31 # 40)])
                         ++ [fills 310 (31 # 40)])) TLT))%Z.
Proof.
  split; [vm_compute; reflexivity|].
  apply (tlt_is_held_to_the_end tlt_then_vti params strategy0);
    [reflexivity | repeat constructor | repeat constructor].
Defined.

(** X14: along every run the marker is set exactly while the broker has
    an order of the strategy outstanding: it is never left set without
    an order, and no order is outstanding behind a clear marker. *)
Theorem marker_follows_the_broker :
  forall (fd : Data -> list Q) (prm : Params) (s : SMAStrategy)
         (bs : list (list (Status * OrderData))),
    __init__ prm = Ok s ->
    well_reported bs ->
    let w := run (start fd s) bs in
    (order (strat w) = None <-> pending w = []).
Proof.
  intros fd prm s bs Hs Hr w.
  assert (Ht : tracked w).
  { apply tracked_run; [exact Hr|]. apply tracked_start.
    injection Hs as <-. reflexivity. }
  unfold tracked in Ht. destruct (order (strat w)).
  - destruct Ht as [o1 ->]. split; discriminate.
  - rewrite Ht. tauto.
Qed.

Lemma marker_follows_the_broker_witness :
  let w := run (start tlt_then_vti strategy0) (quiet 21) in
  (order (strat w) = None <-> pending w = []).
Proof.
  apply (marker_follows_the_broker tlt_then_vti params);
    [reflexivity | repeat constructor].
Defined.

End LongOnly.

(** * The scripts *)

(** ** Strings and paths *)
Section PathFacts.
Import Ascii String.
Local Open Scope string_scope.

Lemma append_inj_l (p a b : string) : p ++ a = p ++ b -> a = b.
Proof.
  induction p as [|c p IH]; cbn; [auto|].
  intros H. injection H as H. auto.
Qed.

Lemma append_self (a b : string) : a ++ b = a -> b = "".
Proof.
  induction a as [|c a IH]; cbn; [auto|].
  intros H. injection H as H. auto.
Qed.

Lemma append_assoc (a b c : string) : (a ++ b) ++ c = a ++ (b ++ c).
Proof.
  induction a as [|x a IH]; cbn; [reflexivity|]. now rewrite IH.
Qed.

Lemma join_relative (a b : string) :
  startswith_sep b = false -> join a b = stem a ++ b.
Proof.
  intros H. unfold join, stem. rewrite H.
  destruct ((a =? "") || endswith_sep a); [reflexivity|].
  now rewrite append_assoc.
Qed.

Lemma has_append c (a b : string) : has c (a ++ b) = has c a || has c b.
Proof.
  induction a as [|x a IH]; cbn; [reflexivity|].
  now rewrite IH, orb_assoc.
Qed.

Lemma basename_no_sep (n : string) : has "/" n = false -> basename n = n.
Proof.
  destruct n as [|c n]; cbn; [reflexivity|]. now intros ->.
Qed.

Lemma basename_after_sep (a n : string) :
  has "/" n = false -> basename (a ++ "/" ++ n) = n.
Proof.
  intros Hn. induction a as [|c a IH]; cbn.
  - now apply basename_no_sep.
  - rewrite has_append. cbn. rewrite !orb_true_r. exact IH.
Qed.

Lemma endswith_sep_split (a : string) :
  endswith_sep a = true -> exists a', a = a' ++ "/".
Proof.
  induction a as [|c a IH]; cbn; [discriminate|].
  destruct a as [|d a].
  - intros H. apply Ascii.eqb_eq in H. subst. now exists "".
  - intros H. destruct (IH H) as [a' ->]. now exists (String c a').
Qed.

Lemma startswith_sep_has (b : string) :
  has "/" b = false -> startswith_sep b = false.
Proof.
  destruct b as [|c b]; cbn; [reflexivity|].
  intros H. now apply orb_false_iff in H as [H _].
Qed.

(** [basename] undoes [join] on a name without slash. *)
Lemma basename_join (a n : string) :
  has "/" n = false -> basename (join a n) = n.
Proof.
  intros Hn. rewrite join_relative by now apply startswith_sep_has.
  unfold stem. destruct (a =? "") eqn:Ea.
  - apply String.eqb_eq in Ea. subst. cbn. now apply basename_no_sep.
  - cbn [orb]. destruct (endswith_sep a) eqn:Es.
    + destruct (endswith_sep_split a Es) as [a' ->].
      rewrite append_assoc. now apply basename_after_sep.
    + rewrite append_assoc. now apply basename_after_sep.
Qed.

Lemma before_append c (t rest : string) :
  has c t = false -> before c (t ++ String c rest) = t.
Proof.
  induction t as [|a t IH]; cbn.
  - now rewrite Ascii.eqb_refl.
  - intros H. apply orb_false_iff in H as [Ha Ht].
    rewrite Ha. now rewrite IH.
Qed.

End PathFacts.

(** ** download_historical_data.py *)
Section DownloadFacts.
Import Ascii String DownloadHistoricalData.
Local Open Scope string_scope.

Variable DataFrame : Type.
Variable download : string -> DataFrame.

Lemma write_same p n (fs : FS DataFrame) : write p n fs p = Some n.
Proof. unfold write. now rewrite String.eqb_refl. Qed.

Lemma write_other p q n (fs : FS DataFrame) :
  p <> q -> write p n fs q = fs q.
Proof.
  intros H. unfold write. destruct (String.eqb_spec p q); congruence.
Qed.

(** A file found before the loop is found unchanged after it. *)
Lemma fetch_preserves dd ts : forall (fs : FS DataFrame) p n,
  fs p = Some n -> fst (fetch download dd ts fs) p = Some n.
Proof.
  induction ts as [|t ts IH]; intros fs p n H; cbn; [exact H|].
  unfold exists_. destruct (fs (file_path dd t)) eqn:E.
  - specialize (IH fs p n H). destruct (fetch download dd ts fs). exact IH.
  - assert (Hw : write (file_path dd t) (File (download t)) fs p = Some n).
    { rewrite write_other; [exact H|]. intros <-. congruence. }
    specialize (IH _ p n Hw).
    destruct (fetch download dd ts
                (write (file_path dd t) (File (download t)) fs)).
    exact IH.
Qed.

Lemma exists_preserved dd ts (fs : FS DataFrame) p :
  exists_ fs p = true -> exists_ (fst (fetch download dd ts fs)) p = true.
Proof.
  unfold exists_. destruct (fs p) as [n|] eqn:E; [|discriminate].
  intros _. now rewrite (fetch_preserves dd ts fs p n E).
Qed.

(** After the loop the file of every ticker of the list is there. *)
Lemma fetch_complete dd ts : forall (fs : FS DataFrame) t,
  In t ts -> exists_ (fst (fetch download dd ts fs)) (file_path dd t) = true.
Proof.
  induction ts as [|t0 ts IH]; intros fs t Hin; [destruct Hin|].
  cbn. destruct (exists_ fs (file_path dd t0)) eqn:E.
  - destruct Hin as [<-|Hin].
    + pose proof (exists_preserved dd ts fs _ E) as H.
      destruct (fetch download dd ts fs). exact H.
    + specialize (IH fs t Hin). destruct (fetch download dd ts fs). exact IH.
  - set (fs1 := write (file_path dd t0) (File (download t0)) fs).
    destruct Hin as [<-|Hin].
    + assert (E1 : exists_ fs1 (file_path dd t0) = true).
      { unfold exists_, fs1. now rewrite write_same. }
      pose proof (exists_preserved dd ts fs1 _ E1) as H.
      destruct (fetch download dd ts fs1). exact H.
    + specialize (IH fs1 t Hin). destruct (fetch download dd ts fs1). exact IH.
Qed.

(** When every file is there the loop only prints. *)
Lemma fetch_nothing_missing dd ts (fs : FS DataFrame) :
  (forall t, In t ts -> exists_ fs (file_path dd t) = true) ->
  fetch download dd ts fs = (fs, map (fun t => Printed (ALREADY_EXISTS t)) ts).
Proof.
  induction ts as [|t ts IH]; intros H; cbn; [reflexivity|].
  rewrite (H t (or_introl eq_refl)).
  rewrite IH by (intros t' Ht'; apply H; now right). reflexivity.
Qed.

(** The loop downloads the tickers whose file is missing, each once. *)
Lemma fetch_downloads dd ts : forall (fs : FS DataFrame),
  NoDup (map (file_path dd) ts) ->
  downloads (snd (fetch download dd ts fs))
  = filter (fun t => negb (exists_ fs (file_path dd t))) ts.
Proof.
  induction ts as [|t ts IH]; intros fs Hnd; cbn; [reflexivity|].
  inversion Hnd as [|x l Hnotin Hnd']; subst.
  destruct (exists_ fs (file_path dd t)) eqn:E; cbn [negb].
  - specialize (IH fs Hnd'). destruct (fetch download dd ts fs). exact IH.
  - set (fs1 := write (file_path dd t) (File (download t)) fs).
    specialize (IH fs1 Hnd'). destruct (fetch download dd ts fs1) as [fs' es].
    cbn [snd downloads] in *. rewrite IH. f_equal.
    apply filter_ext_in. intros t' Ht'. f_equal.
    unfold exists_, fs1. rewrite write_other; [reflexivity|].
    intros Heq. apply Hnotin. rewrite Heq. now apply in_map.
Qed.

Lemma file_path_stem dd t :
  startswith_sep (t ++ "_data.csv") = false ->
  file_path dd t = stem dd ++ (t ++ "_data.csv").
Proof. intros H. unfold file_path. now apply join_relative. Qed.

(** The files of the eleven tickers are eleven different paths, none of
    them the data directory. *)
Lemma ticker_paths_differ dd : NoDup (map (file_path dd) tickers).
Proof.
  unfold tickers. cbn [map]. rewrite !file_path_stem by reflexivity.
  repeat constructor; cbn [In]; intros H;
    repeat match goal with
      | H : _ \/ _ |- _ => destruct H as [H|H]
      | H : stem dd ++ _ = stem dd ++ _ |- _ =>
          apply append_inj_l in H; discriminate H
      | H : False |- _ => destruct H
      end.
Qed.

Lemma ticker_path_not_dir dd t :
  In t tickers -> file_path dd t <> dd.
Proof.
  intros Hin Heq.
  assert (Hs : startswith_sep (t ++ "_data.csv") = false).
  { unfold tickers in Hin. cbn in Hin.
    repeat (destruct Hin as [<-|Hin]; [reflexivity|]). destruct Hin. }
  rewrite file_path_stem in Heq by exact Hs.
  unfold stem in Heq. destruct ((dd =? "") || endswith_sep dd).
  - apply append_self in Heq. destruct t; discriminate.
  - rewrite append_assoc in Heq. apply append_self in Heq. discriminate.
Qed.

(** What [makedirs] leaves of the file system it is given. *)
Lemma makedirs_ok dd (fs fs1 : FS DataFrame) :
  makedirs dd fs = Ok fs1 ->
  fs1 dd = Some Dir
  /\ (forall p n, fs p = Some n -> fs1 p = Some n)
  /\ (forall p, p <> dd -> fs1 p = fs p).
Proof.
  unfold makedirs. destruct (fs dd) as [[|df]|] eqn:E; intros H;
    [injection H as <- | discriminate | injection H as <-].
  - auto.
  - split; [apply write_same|]. split.
    + intros p n Hp. rewrite write_other; [exact Hp|]. intros <-. congruence.
    + intros p Hp. apply write_other. congruence.
Qed.

Section Run.

Variable here : string.
Variable fs fs' : FS DataFrame.
Variable es : list Event.
Hypothesis Hrun : script download here fs = Ok (fs', es).

Lemma script_inv :
  exists fs1,
    makedirs (join here "data") fs = Ok fs1
    /\ fetch download (join here "data") tickers fs1 = (fs', es).
Proof.
  unfold DownloadHistoricalData.script in Hrun.
  destruct (makedirs (join here "data") fs) as [fs1|e]; [|discriminate].
  exists fs1. split; [reflexivity|]. cbn in Hrun. now injection Hrun.
Qed.

Lemma script_preserves :
  forall p n, fs p = Some n -> fs' p = Some n.
Proof.
  intros p n H. destruct script_inv as (fs1 & Hm & Hf).
  destruct (makedirs_ok _ fs fs1 Hm) as (_ & Hkeep & _).
  pose proof (fetch_preserves (join here "data") tickers fs1 p n
                (Hkeep p n H)) as Hp.
  now rewrite Hf in Hp.
Qed.

Lemma script_leaves_files :
  fs' (join here "data") = Some Dir
  /\ forall t,
       In t tickers -> exists_ fs' (file_path (join here "data") t) = true.
Proof.
  destruct script_inv as (fs1 & Hm & Hf).
  destruct (makedirs_ok _ fs fs1 Hm) as (Hdir & _ & _). split.
  - pose proof (fetch_preserves (join here "data") tickers fs1 _ Dir Hdir)
      as Hp.
    now rewrite Hf in Hp.
  - intros t Ht.
    pose proof (fetch_complete (join here "data") tickers fs1 t Ht) as Hp.
    now rewrite Hf in Hp.
Qed.

Lemma script_twice :
  script download here fs'
  = Ok (fs', map (fun t => Printed (ALREADY_EXISTS t)) tickers).
Proof.
  destruct script_leaves_files as [Hdir Hall].
  unfold DownloadHistoricalData.script.
  unfold makedirs. rewrite Hdir. cbn [rbind].
  now rewrite fetch_nothing_missing.
Qed.

Lemma script_downloads :
  downloads es
  = filter (fun t => negb (exists_ fs (file_path (join here "data") t)))
      tickers.
Proof.
  destruct script_inv as (fs1 & Hm & Hf).
  destruct (makedirs_ok _ fs fs1 Hm) as (_ & _ & Hsame).
  pose proof (fetch_downloads (join here "data") tickers fs1
                (ticker_paths_differ (join here "data"))) as Hd.
  rewrite Hf in Hd. cbn [snd] in Hd. rewrite Hd.
  apply filter_ext_in. intros t Ht. f_equal. unfold exists_.
  now rewrite (Hsame _ (ticker_path_not_dir _ t Ht)).
Qed.

End Run.

(** X15: the script never overwrites: whatever was at a path before the
    run, a file with its content or a directory, is there unchanged
    after it. *)
Theorem download_never_overwrites :
  forall (here : string) (fs fs' : FS DataFrame) (es : list Event),
    script download here fs = Ok (fs', es) ->
    forall p n, fs p = Some n -> fs' p = Some n.
Proof. exact script_preserves. Qed.

(** X16: after a run the data directory exists and so does the CSV file
    of each of the eleven tickers. *)
Theorem download_leaves_every_file :
  forall (here : string) (fs fs' : FS DataFrame) (es : list Event),
    script download here fs = Ok (fs', es) ->
    fs' (join here "data") = Some Dir
    /\ forall t,
         In t tickers ->
         exists_ fs' (file_path (join here "data") t) = true.
Proof. exact script_leaves_files. Qed.

(** X17: a second run changes nothing: it downloads nothing, leaves the
    file system as the first run left it and prints the "already exists"
    line for each ticker. *)
Theorem download_is_idempotent :
  forall (here : string) (fs fs' : FS DataFrame) (es : list Event),
    script download here fs = Ok (fs', es) ->
    script download here fs'
    = Ok (fs', map (fun t => Printed (ALREADY_EXISTS t)) tickers).
Proof. exact script_twice. Qed.

(** X18: a run downloads exactly the tickers whose file was missing
    before it, once each and in the order of the list. *)
Theorem download_fetches_the_missing :
  forall (here : string) (fs fs' : FS DataFrame) (es : list Event),
    script download here fs = Ok (fs', es) ->
    downloads es
    = filter (fun t => negb (exists_ fs (file_path (join here "data") t)))
        tickers.
Proof. exact script_downloads. Qed.

End DownloadFacts.

Section DownloadWitnesses.
Import Ascii String DownloadHistoricalData Disk.
Local Open Scope string_scope.

Lemma disk_run :
  script fake_download "/srv" old_vti = Ok (fst after_run, snd after_run).
Proof. vm_compute. reflexivity. Qed.

Lemma download_never_overwrites_witness :
  fst after_run "/srv/data/VTI_data.csv" = Some (File 7%nat).
Proof.
  apply (download_never_overwrites nat fake_download "/srv" old_vti
           (fst after_run) (snd after_run) disk_run).
  reflexivity.
Defined.

Lemma download_leaves_every_file_witness :
  fst after_run "/srv/data" = Some Dir
  /\ exists_ (fst after_run) (file_path "/srv/data" "VEA") = true.
Proof.
  destruct (download_leaves_every_file nat fake_download "/srv" old_vti
              (fst after_run) (snd after_run) disk_run) as [Hd Hall].
  split; [exact Hd|]. apply Hall. vm_compute. tauto.
Defined.

Lemma download_is_idempotent_witness :
  script fake_download "/srv" (fst after_run)
  = Ok (fst after_run, map (fun t => Printed (ALREADY_EXISTS t)) tickers).
Proof.
  exact (download_is_idempotent nat fake_download "/srv" old_vti
           (fst after_run) (snd after_run) disk_run).
Defined.

Lemma download_fetches_the_missing_witness :
  downloads (snd after_run)
  = filter (fun t => negb (exists_ old_vti (file_path "/srv/data" t)))
      tickers.
Proof.
  exact (download_fetches_the_missing nat fake_download "/srv" old_vti
           (fst after_run) (snd after_run) disk_run).
Defined.

End DownloadWitnesses.

(** ** [main] of app.py and the data it needs *)
Section MainFacts.
Import Ascii String AppMain.
Local Open Scope string_scope.

(** X19: [main] runs the backtest exactly when the data directory, the
    VTI file and the TLT file are all found; otherwise it stops at the
    first of the three that is missing, in this order, with the message
    that names it. *)
Theorem main_checks_the_data :
  forall (here : string) (found : string -> bool),
    let data_dir := join here "data" in
    let vti := join data_dir "VTI_data.csv" in
    let tlt := join data_dir "TLT_data.csv" in
    ((exists cfg, main here found = Backtest cfg)
       <-> found data_dir = true /\ found vti = true /\ found tlt = true)
    /\ (found data_dir = false ->
        main here found = Stopped (DATA_DIR_DOES_NOT_EXIST data_dir))
    /\ (found data_dir = true -> found vti = false ->
        main here found = Stopped (VTI_FILE_DOES_NOT_EXIST vti))
    /\ (found data_dir = true -> found vti = true -> found tlt = false ->
        main here found = Stopped (TLT_FILE_DOES_NOT_EXIST tlt)).
Proof.
  intros here found data_dir vti tlt. unfold main.
  fold data_dir. fold vti. fold tlt.
  destruct (found data_dir), (found vti), (found tlt); cbn;
    (split; [split; [intros [cfg H]; try discriminate H; auto
                    | intros (A & B & C); try discriminate; eauto]|]);
    repeat split; intros; try discriminate; reflexivity.
Qed.

Lemma main_checks_the_data_witness :
  main "/srv" (fun _ => false)
  = Stopped (DATA_DIR_DOES_NOT_EXIST (join "/srv" "data")).
Proof.
  apply (proj1 (proj2 (main_checks_the_data "/srv" (fun _ => false)))).
  reflexivity.
Defined.

(** X20: the download script prepares what [main] asks for.  After a run
    of download_historical_data.py, [main] of app.py started from the same
    directory passes its three checks and runs the backtest, on the VTI
    and TLT files the script left, VTI first. *)
Theorem download_then_backtest :
  forall (DataFrame : Type) (download : string -> DataFrame)
         (here : string) (fs fs' : FS DataFrame)
         (es : list DownloadHistoricalData.Event),
    DownloadHistoricalData.script download here fs = Ok (fs', es) ->
    exists cfg,
      main here (exists_ fs') = Backtest cfg
      /\ feeds cfg
         = [("VTI", DownloadHistoricalData.file_path (join here "data") "VTI");
            ("TLT", DownloadHistoricalData.file_path (join here "data") "TLT")].
Proof.
  intros DataFrame download here fs fs' es Hrun.
  destruct (script_leaves_files DataFrame download here fs fs' es Hrun)
    as [Hdir Hall].
  assert (Hv : exists_ fs' (join (join here "data") "VTI_data.csv") = true).
  { apply (Hall "VTI"). cbn. auto. }
  assert (Ht : exists_ fs' (join (join here "data") "TLT_data.csv") = true).
  { apply (Hall "TLT"). cbn. auto. }
  assert (Hd : exists_ fs' (join here "data") = true).
  { unfold exists_. now rewrite Hdir. }
  eexists. unfold main. rewrite Hd, Hv, Ht. cbn [negb].
  split; reflexivity.
Qed.

Lemma download_then_backtest_witness :
  exists cfg,
    main "/srv" (exists_ (fst Disk.after_run)) = Backtest cfg
    /\ feeds cfg
       = [("VTI", DownloadHistoricalData.file_path (join "/srv" "data") "VTI");
          ("TLT", DownloadHistoricalData.file_path (join "/srv" "data") "TLT")].
Proof.
  exact (download_then_backtest nat Disk.fake_download "/srv" Disk.old_vti
           (fst Disk.after_run) (snd Disk.after_run) disk_run).
Defined.

End MainFacts.

(** ** r2_correlation_matrix.py *)
Section TickerFacts.
Import Ascii String R2CorrelationMatrix.
Local Open Scope string_scope.

(** X21: the analysis script reads back the ticker the download script
    put in the file name.  For a ticker with no underscore and no slash,
    and any data directory, the ticker extracted from the path of its CSV
    file is the ticker itself. *)
Theorem ticker_of_file_path :
  forall data_dir ticker : string,
    has "_" ticker = false ->
    has "/" ticker = false ->
    ticker_of (DownloadHistoricalData.file_path data_dir ticker) = ticker.
Proof.
  intros dd t Hu Hs. unfold ticker_of, DownloadHistoricalData.file_path.
  rewrite basename_join.
  - now apply (before_append "_" t "data.csv").
  - rewrite has_append, Hs. reflexivity.
Qed.

Lemma ticker_of_file_path_witness :
  ticker_of (DownloadHistoricalData.file_path "/srv/data" "VTI") = "VTI".
Proof.
  apply ticker_of_file_path; reflexivity.
Defined.

Lemma before_append_cut c (t rest : string) :
  before c (t ++ String c rest) = before c t.
Proof.
  induction t as [|a t IH]; cbn.
  - now rewrite Ascii.eqb_refl.
  - destruct (a =? c)%char; [reflexivity|]. now rewrite IH.
Qed.

Lemma before_has_not c (s : string) : has c (before c s) = false.
Proof.
  induction s as [|a s IH]; cbn; [reflexivity|].
  destruct (a =? c)%char eqn:E; cbn; [reflexivity|]. now rewrite E, IH.
Qed.

(** X22: a ticker with an underscore is not read back: for every ticker
    without slash, the ticker extracted from the path of its CSV file is
    the ticker cut at its first underscore, and it never contains
    one. *)
Theorem ticker_of_cuts_at_underscore :
  forall data_dir ticker : string,
    has "/" ticker = false ->
    ticker_of (DownloadHistoricalData.file_path data_dir ticker)
    = before "_" ticker
    /\ has "_" (ticker_of (DownloadHistoricalData.file_path data_dir ticker))
       = false.
Proof.
  intros dd t Hs. unfold ticker_of, DownloadHistoricalData.file_path.
  rewrite basename_join by (rewrite has_append, Hs; reflexivity).
  change (t ++ "_data.csv") with (t ++ String "_" "data.csv").
  rewrite before_append_cut. split; [reflexivity|apply before_has_not].
Qed.

Lemma ticker_of_cuts_at_underscore_witness :
  ticker_of (DownloadHistoricalData.file_path "/srv/data" "BRK_B") = "BRK"
  /\ has "_" (ticker_of (DownloadHistoricalData.file_path "/srv/data" "BRK_B"))
     = false.
Proof.
  apply (ticker_of_cuts_at_underscore "/srv/data" "BRK_B"). reflexivity.
Defined.

End TickerFacts.

(** ** The averages of r2_correlation_matrix.py *)
Section AverageFacts.
Import Ascii String R2CorrelationMatrix.
Local Open Scope string_scope.

Lemma square_within (q : Q) : (-1 <= q <= 1)%Q -> (0 <= q * q <= 1)%Q.
Proof. intros [H1 H2]. split; nra. Qed.

Lemma Qsum_within lo hi (vs : list Q) :
  (forall q, In q vs -> (lo <= q <= hi)%Q) ->
  (lo * inject_Z (Z.of_nat (List.length vs)) <= Qsum vs
   <= hi * inject_Z (Z.of_nat (List.length vs)))%Q.
Proof.
  induction vs as [|v vs IH]; intros H.
  - cbn. change (inject_Z 0) with 0%Q. split; lra.
  - cbn [List.length Qsum fold_right].
    rewrite Nat2Z.inj_succ, <- Z.add_1_l, inject_Z_plus.
    fold (Qsum vs).
    destruct (H v (or_introl eq_refl)) as [Hl Hh].
    destruct IH as [IHl IHh]; [intros q Hq; apply H; now right|].
    change (inject_Z 1) with 1%Q. split; nra.
Qed.

Lemma defined_in (s : Series) q :
  In q (defined s) -> exists k, In (k, Some q) s.
Proof.
  induction s as [|[k [v|]] s IH]; cbn; [intros []| |].
  - intros [<-|H]; [eauto|]. destruct (IH H) as [k' Hk]. eauto.
  - intros H. destruct (IH H) as [k' Hk]. eauto.
Qed.

(** The mean of values between [lo] and [hi] is NaN or between them. *)
Lemma mean_within lo hi (s : Series) :
  (forall k q, In (k, Some q) s -> (lo <= q <= hi)%Q) ->
  nan_or_within lo hi (mean s).
Proof.
  intros H. unfold mean, nan_or_within.
  destruct (defined s) as [|v vs] eqn:E; [exact I|].
  assert (Hall : forall q, In q (v :: vs) -> (lo <= q <= hi)%Q).
  { intros q Hq. rewrite <- E in Hq.
    destruct (defined_in s q Hq) as [k Hk]. eauto. }
  destruct (Qsum_within lo hi (v :: vs) Hall) as [Hl Hh].
  assert (Hpos : (0 < inject_Z (Z.of_nat (List.length (v :: vs))))%Q).
  { change 0%Q with (inject_Z 0). rewrite <- Zlt_Qlt. cbn [List.length]. lia. }
  split.
  - apply Qle_shift_div_l; assumption.
  - apply Qle_shift_div_r; assumption.
Qed.

Lemma column_in label (m : Frame) s :
  column label m = Ok s -> In (label, s) m.
Proof.
  induction m as [|[l c] m IH]; cbn; [discriminate|].
  destruct (String.eqb_spec l label) as [->|Hne].
  - intros H. injection H as ->. now left.
  - intros H. right. now apply IH.
Qed.

Lemma drop_in label (s s' : Series) e :
  drop label s = Ok s' -> In e s' -> In e s.
Proof.
  unfold drop. destruct (existsb _ s); [|discriminate].
  intros H. injection H as <-. intros Hin.
  now apply filter_In in Hin as [Hin _].
Qed.

Lemma pow2_within (m : Frame) : within (-1) 1 m -> within 0 1 (pow2 m).
Proof.
  intros H l s k q Hin Hk. unfold pow2 in Hin.
  apply in_map_iff in Hin as ([l0 s0] & Heq & Hin0).
  cbn [fst snd] in Heq. injection Heq as <- <-.
  apply in_map_iff in Hk as ([k0 [v|]] & Heq & Hk0);
    cbn [fst snd square] in Heq; [|discriminate].
  injection Heq as <- <-. apply square_within. exact (H l0 s0 k0 v Hin0 Hk0).
Qed.

Lemma assign_in key v (d : list (string * num)) k x :
  In (k, x) (assign key v d) -> x = v \/ In (k, x) d.
Proof.
  induction d as [|[k0 x0] d IH]; cbn.
  - intros [H|[]]. injection H as _ <-. now left.
  - destruct (k0 =? key).
    + intros [H|H]; [injection H as _ <-; now left|]. right. now right.
    + intros [H|H]; [right; now left|].
      destruct (IH H) as [->|Hd]; [now left|right; now right].
Qed.

(** An average of one ticker's column is within the bounds of the
    frame. *)
Lemma average_within lo hi (m : Frame) ticker c s :
  within lo hi m -> column ticker m = Ok c -> drop ticker c = Ok s ->
  nan_or_within lo hi (mean s).
Proof.
  intros Hw Hc Hd. apply mean_within. intros k q Hk.
  apply (Hw ticker c k q); [now apply column_in|].
  exact (drop_in ticker c s _ Hd Hk).
Qed.

Lemma average_loop_within (m r2 : Frame) lo hi lo2 hi2 cols :
  within lo hi m -> within lo2 hi2 r2 ->
  forall ac ar ac' ar',
    (forall k x, In (k, x) ac -> nan_or_within lo hi x) ->
    (forall k x, In (k, x) ar -> nan_or_within lo2 hi2 x) ->
    average_loop m r2 cols ac ar = Ok (ac', ar') ->
    (forall k x, In (k, x) ac' -> nan_or_within lo hi x)
    /\ (forall k x, In (k, x) ar' -> nan_or_within lo2 hi2 x).
Proof.
  intros Hm Hr. induction cols as [|t cols IH]; intros ac ar ac' ar' Hac Har.
  - cbn. intros H. injection H as <- <-. auto.
  - cbn [average_loop].
    destruct (column t m) as [c|e] eqn:Ec; [|discriminate]. cbn [rbind].
    destruct (drop t c) as [s|e] eqn:Ed; [|discriminate]. cbn [rbind].
    destruct (column t r2) as [c2|e] eqn:Ec2; [|discriminate]. cbn [rbind].
    destruct (drop t c2) as [s2|e] eqn:Ed2; [|discriminate]. cbn [rbind].
    apply IH.
    + intros k x Hin. apply assign_in in Hin as [->|Hin]; [|eauto].
      exact (average_within lo hi m t c s Hm Ec Ed).
    + intros k x Hin. apply assign_in in Hin as [->|Hin]; [|eauto].
      exact (average_within lo2 hi2 r2 t c2 s2 Hr Ec2 Ed2).
Qed.

(** X23: the averages stay within the range of what is averaged.  When
    every correlation that is not NaN lies between -1 and 1, every average
    correlation the loop computes is NaN or between -1 and 1, and every
    average R-squared is NaN or between 0 and 1. *)
Theorem averages_are_bounded :
  forall (correlation_matrix : Frame) avg_correlation avg_r2,
    within (-1) 1 correlation_matrix ->
    averages correlation_matrix = Ok (avg_correlation, avg_r2) ->
    (forall t x, In (t, x) avg_correlation -> nan_or_within (-1) 1 x)
    /\ (forall t x, In (t, x) avg_r2 -> nan_or_within 0 1 x).
Proof.
  intros m ac ar Hw Hrun. unfold averages in Hrun.
  apply (average_loop_within m (pow2 m) (-1) 1 0 1 (map fst m) Hw
           (pow2_within m Hw) [] [] ac ar);
    [intros k x [] | intros k x [] | exact Hrun].
Qed.

(** X24: a single ETF has no average.  With one ticker only, its column
    is empty once its own row is dropped, and both its average
    correlation and its average R-squared are NaN, whatever the value on
    the diagonal. *)
Theorem single_etf_has_no_average :
  forall (ticker : string) (v : num),
    averages [(ticker, [(ticker, v)])]
    = Ok ([(ticker, nan)], [(ticker, nan)]).
Proof.
  intros t v. unfold averages, pow2. cbn.
  rewrite String.eqb_refl. cbn. unfold drop. cbn.
  rewrite String.eqb_refl. cbn. reflexivity.
Qed.

Lemma averages_are_bounded_witness :
  nan_or_within (-1) 1 (mean [("TLT", Some (-1 # 2)%Q)])
  /\ nan_or_within 0 1 (mean [("TLT", square (Some (-1 # 2)%Q))]).
Proof.
  destruct (averages_are_bounded Sample.two_etfs
              [("VTI", mean [("TLT", Some (-1 # 2)%Q)]);
               ("TLT", mean [("VTI", Some (-1 # 2)%Q)])]
              [("VTI", mean [("TLT", square (Some (-1 # 2)%Q))]);
               ("TLT", mean [("VTI", square (Some (-1 # 2)%Q))])])
    as [Hc Hr].
  - intros l s k q Hin Hk. unfold Sample.two_etfs in Hin. cbn [In] in Hin.
    destruct Hin as [Hin|[Hin|[]]]; injection Hin as <- <-;
      cbn [In] in Hk; destruct Hk as [Hk|[Hk|[]]]; injection Hk as <- <-;
      split; lra.
  - reflexivity.
  - split.
    + apply (Hc "VTI"). now left.
    + apply (Hr "VTI"). now left.
Defined.

End AverageFacts.
